(** * MagisterJS: the [Magister] client class of [src/magister.js]

    A shallow embedding of the session / privilege-gated request flow of
    the MagisterJS client, and the properties of its public operations
    ([appointments], [courses], [createAppointment], [messageFolders],
    [persons], [login]).

    Conventions of the embedding.
    - JavaScript values are the inductive [value] (primitives and [Date]
      objects) and [data] (values, arrays, plain objects).  A plain object
      is a finite map from property names to [data]; reading an absent
      property gives [undefined].
    - Numbers are integers ([Z]); a [Date] is its time value in
      milliseconds since the epoch (valid dates only).
    - Strings are sequences of 8-bit code units.
    - A promise-returning method is a function from the client state to a
      [Result]: the state afterwards, the HTTP requests issued (in issue
      order) and the [Outcome] ([Resolved], [Rejected], or [Thrown] when
      the method throws synchronously instead of returning a promise).
    - The HTTP transport is an oracle from requests to responses; responses
      are assumed to arrive in the order in which the requests were issued. *)

From Stdlib Require Import Ascii String ZArith Lia Sorted Permutation.
From stdpp Require Import gmap strings list fin_maps pretty sorting.

Local Open Scope string_scope.
Local Open Scope Z_scope.

(* ================================================================== *)
(** ** JavaScript values *)
(* ================================================================== *)

Module JS.

Inductive value : Type :=
| VUndefined
| VNull
| VBool (b : bool)
| VNum (n : Z)
| VStr (s : string)
| VDate (t : Z).

#[warnings="-register-all"]
Inductive data : Type :=
| Prim (v : value)
| Arr (l : list data)
| Obj (m : gmap string data).

Definition undefined : data := Prim VUndefined.
Definition null : data := Prim VNull.

(** [x == null] *)
Definition nullish (d : data) : bool :=
  match d with
  | Prim VUndefined | Prim VNull => true
  | _ => false
  end.

(** ToBoolean *)
Definition truthy (d : data) : bool :=
  match d with
  | Prim VUndefined | Prim VNull => false
  | Prim (VBool b) => b
  | Prim (VNum n) => negb (n =? 0)
  | Prim (VStr s) => negb (String.eqb s "")
  | Prim (VDate _) => true
  | Arr _ | Obj _ => true
  end.

(** [a || b] *)
Definition or_ (a b : data) : data := if truthy a then a else b.

(** [o[k]] on a plain object *)
Definition get (o : gmap string data) (k : string) : data :=
  default undefined (o !! k).

(** [_.isDate], [_.isPlainObject] *)
Definition isDate (d : data) : option Z :=
  match d with Prim (VDate t) => Some t | _ => None end.

Definition isPlainObject (d : data) : option (gmap string data) :=
  match d with Obj m => Some m | _ => None end.

(** [Array.prototype.join] on strings *)
Fixpoint join (sep : string) (l : list string) : string :=
  match l with
  | [] => ""
  | [x] => x
  | x :: l' => x +:+ sep +:+ join sep l'
  end.

(** White space removed by [String.prototype.trim] (code units below 256). *)
Definition isWhiteSpace (c : ascii) : bool :=
  let n := nat_of_ascii c in
  ((9 <=? n) && (n <=? 13) || (n =? 32) || (n =? 160))%nat.

Fixpoint trimStart (s : string) : string :=
  match s with
  | String c s' => if isWhiteSpace c then trimStart s' else s
  | EmptyString => EmptyString
  end.

Fixpoint trimEnd (s : string) : string :=
  match s with
  | String c s' =>
      match trimEnd s' with
      | EmptyString => if isWhiteSpace c then EmptyString else String c EmptyString
      | t => String c t
      end
  | EmptyString => EmptyString
  end.

Definition trim (s : string) : string := trimEnd (trimStart s).

(** [s.replace(/ +/g, '+')]: every maximal run of spaces becomes one plus
    (a space followed by a space is dropped, the last one of a run is
    rewritten). *)
Fixpoint replaceSpaces (s : string) : string :=
  match s with
  | EmptyString => EmptyString
  | String c s' =>
      if Ascii.eqb c " " then
        match s' with
        | String c' _ =>
            if Ascii.eqb c' " " then replaceSpaces s'
            else String "+" (replaceSpaces s')
        | EmptyString => String "+" EmptyString
        end
      else String c (replaceSpaces s')
  end.

(** [s.replace(/^https?/, 'https')] *)
Definition replaceScheme (s : string) : string :=
  match s with
  | String "h" (String "t" (String "t" (String "p" (String "s" _)))) => s
  | String "h" (String "t" (String "t" (String "p" rest))) => "https" +:+ rest
  | _ => s
  end.

(** [/[a-z\d-]+/.exec(s)]: the first maximal run of lowercase letters,
    digits and hyphens, or [None] when [s] has none. *)
Definition isIdChar (c : ascii) : bool :=
  let n := nat_of_ascii c in
  ((97 <=? n) && (n <=? 122) || (48 <=? n) && (n <=? 57) || (n =? 45))%nat.

Fixpoint takeId (s : string) : string :=
  match s with
  | String c s' => if isIdChar c then String c (takeId s') else EmptyString
  | EmptyString => EmptyString
  end.

Fixpoint execId (s : string) : option string :=
  match s with
  | String c s' => if isIdChar c then Some (takeId s) else execId s'
  | EmptyString => None
  end.

(** [_.escape] *)
Definition quot : ascii := "034"%char.

Fixpoint escape (s : string) : string :=
  match s with
  | EmptyString => EmptyString
  | String c s' =>
      (if Ascii.eqb c "&" then "&amp;"
       else if Ascii.eqb c "<" then "&lt;"
       else if Ascii.eqb c ">" then "&gt;"
       else if Ascii.eqb c quot then "&quot;"
       else if Ascii.eqb c "'" then "&#39;"
       else String c EmptyString) +:+ escape s'
  end.

(** *** Dates *)

Definition msPerDay : Z := 1000 * 60 * 60 * 24.

Fixpoint zeros (n : nat) : string :=
  match n with O => EmptyString | S n' => String "0" (zeros n') end.

(** Decimal rendering of [n >= 0] on at least [w] digits. *)
Definition pad (w : nat) (n : Z) : string :=
  let s := pretty n in zeros (w - String.length s) +:+ s.

(** Civil date [(year, month, day)] of a day number counted from the epoch. *)
Definition civil (days : Z) : Z * Z * Z :=
  let z := days + 719468 in
  let era := z / 146097 in
  let doe := z mod 146097 in
  let yoe := (doe - doe / 1460 + doe / 36524 - doe / 146096) / 365 in
  let doy := doe - (365 * yoe + yoe / 4 - yoe / 100) in
  let mp := (5 * doy + 2) / 153 in
  let d := doy - (153 * mp + 2) / 5 + 1 in
  let m := if mp <? 10 then mp + 3 else mp - 9 in
  let y := yoe + era * 400 + (if m <=? 2 then 1 else 0) in
  (y, m, d).

Definition timeOfDay (t : Z) : string :=
  let ms := t mod msPerDay in
  pad 2 (ms / 3600000) +:+ ":" +:+ pad 2 (ms / 60000 mod 60) +:+ ":" +:+
  pad 2 (ms / 1000 mod 60).

(** [Date.prototype.toISOString], which is what [toJSON] returns for a
    valid date; always in UTC. *)
Definition toISOString (t : Z) : string :=
  let '(y, m, d) := civil (t / msPerDay) in
  (if (0 <=? y) && (y <=? 9999) then pad 4 y
   else if y <? 0 then "-" +:+ pad 6 (- y) else "+" +:+ pad 6 y) +:+
  "-" +:+ pad 2 m +:+ "-" +:+ pad 2 d +:+ "T" +:+ timeOfDay t +:+ "." +:+
  pad 3 (t mod 1000) +:+ "Z".

(** [Number.MAX_SAFE_INTEGER], [2^53 - 1]: up to it every integer is a
    number of ECMAScript. *)
Definition MAX_SAFE_INTEGER : Z := 9007199254740991.

(** [String(n)] for an integer [n]: the decimal digits of a safe integer.
    Beyond the safe integers a number is a rounded double, written with an
    exponent from [1e21]: that rendering is left to the host, [large]. *)
Definition Number_toString (large : Z -> string) (n : Z) : string :=
  if Z.abs n <=? MAX_SAFE_INTEGER then pretty n else large n.

(** [String(x)] as used by template literals, for primitives. *)
Definition toStr (Date_toString large : Z -> string) (v : value) : string :=
  match v with
  | VUndefined => "undefined"
  | VNull => "null"
  | VBool true => "true"
  | VBool false => "false"
  | VNum n => Number_toString large n
  | VStr s => s
  | VDate t => Date_toString t
  end.

(** [`${x}`] where [x] is an optional string property. *)
Definition tmpl (x : option string) : string := default "undefined" x.

End JS.

Import JS.

(* ================================================================== *)
(** ** Errors, HTTP transport, model objects *)
(* ================================================================== *)

Inductive ErrorKind : Type :=
| GenericError            (* [new Error(..)] *)
| TypeError
| AuthError               (* [new AuthError(..)] *)
| PermissionError
| OtherError (name : string).   (* transport and decoding failures *)

Record JsError : Type := mkError { kind : ErrorKind; message : string }.

Inductive Method : Type := GET | POST | DELETE.

Record Request : Type := mkRequest {
  method : Method;
  url : string;
  body : option (gmap string data);
  cookie : option string           (* [http._cookie] when the request is issued *)
}.

Record Response : Type := mkResponse {
  set_cookie : option string;      (* [r.headers.get('set-cookie')], [None] for null *)
  json_body : JsError + data       (* what [r.json()] settles to *)
}.

(** Property read [d.k] on a decoded JSON value (own properties). *)
Definition prop (d : data) (k : string) : JsError + data :=
  match d with
  | Prim VUndefined | Prim VNull =>
      inl (mkError TypeError ("Cannot read property '" +:+ k +:+ "' of undefined"))
  | Obj m => inr (get m k)
  | _ => inr undefined
  end.

(** [d.map(f)] is only defined on arrays. *)
Definition asArray (d : data) : JsError + list data :=
  match d with
  | Arr l => inr l
  | Prim VUndefined | Prim VNull =>
      inl (mkError TypeError "Cannot read property 'map' of undefined")
  | _ => inl (mkError TypeError "map is not a function")
  end.

(** [d[0]] *)
Definition index0 (d : data) : JsError + data :=
  match d with
  | Prim VUndefined | Prim VNull =>
      inl (mkError TypeError "Cannot read property '0' of undefined")
  | Arr l => inr (default undefined (l !! 0%nat))
  | Obj m => inr (get m "0")
  | Prim (VStr (String c _)) => inr (Prim (VStr (String c EmptyString)))
  | _ => inr undefined
  end.

(** [d.toJSON()] *)
Definition toJSON (d : data) : JsError + data :=
  match d with
  | Prim (VDate t) => inr (Prim (VStr (toISOString t)))
  | Prim VUndefined | Prim VNull =>
      inl (mkError TypeError "Cannot read property 'toJSON' of undefined")
  | _ => inl (mkError TypeError "toJSON is not a function")
  end.

(** Modelled from the spec: the model classes ([person.js], [appointment.js],
    [absenceInfo.js], [course.js], [messageFolder.js], [profileInfo.js]) are
    not part of the sources.  Each is a typed view over a decoded JSON
    record; the records below carry the fields [magister.js] reads and
    writes, and the constructors are parameters of the client (section
    [Client]). *)
Module Person.
Record t : Type := mk { raw : data; _filled : bool }.
Definition set_filled (b : bool) (p : t) : t := mk (raw p) b.
End Person.

Module Appointment.
Inductive t : Type :=
| mk (id : Z) (start : Z) (teachers : list Person.t)
     (absenceInfo : option absence) (_url : option string)
with absence : Type :=
| mkAbsence (raw : data) (appointment : t).

Definition id (a : t) : Z := let 'mk i _ _ _ _ := a in i.
Definition start (a : t) : Z := let 'mk _ s _ _ _ := a in s.
Definition teachers (a : t) : list Person.t := let 'mk _ _ ts _ _ := a in ts.
Definition absenceInfo (a : t) : option absence := let 'mk _ _ _ i _ := a in i.
Definition _url (a : t) : option string := let 'mk _ _ _ _ u := a in u.

Definition set_absenceInfo (i : option absence) (a : t) : t :=
  mk (id a) (start a) (teachers a) i (_url a).
Definition set_teachers (ts : list Person.t) (a : t) : t :=
  mk (id a) (start a) ts (absenceInfo a) (_url a).
Definition set_url (u : string) (a : t) : t :=
  mk (id a) (start a) (teachers a) (absenceInfo a) (Some u).
End Appointment.

Module AbsenceInfo.
Abbreviation t := Appointment.absence.
Definition appointment (i : t) : Appointment.t :=
  let 'Appointment.mkAbsence _ a := i in a.
End AbsenceInfo.

Module Course.
Record t : Type := mk { raw : data; start : Z }.
End Course.

Module MessageFolder.
Record t : Type := mk { raw : data }.
End MessageFolder.

Module ProfileInfo.
Record t : Type := mk { raw : data }.
End ProfileInfo.

(** [_.sortBy(l, key)] for keys that compare as numbers (dates): a stable
    ascending sort. *)
Section SortBy.
Context {A : Type} (key : A -> Z).

Fixpoint insertBy (x : A) (l : list A) : list A :=
  match l with
  | [] => [x]
  | y :: l' => if key x <=? key y then x :: l else y :: insertBy x l'
  end.

Definition sortBy (l : list A) : list A := foldr insertBy [] l.

(** The order [sortBy] sorts by. *)
Definition keyLe (a b : A) : Prop := key a <= key b.
End SortBy.

(* ================================================================== *)
(** ** Privileges *)
(* ================================================================== *)

(** Modelled from the spec: [privileges.js] is not part of the sources.
    Spec 3: a privilege set is a "mapping from (resourceName, lowercased) to
    set of granted actions", and "lookups are case-insensitive on resource
    name".  Spec 4.2: [needs(resourceName, action)] "fails with
    PermissionError unless resourceName grants action"; it issues no network
    request. *)
Module Privileges.
Abbreviation t := (gmap string (gset string)).

Definition lowerChar (c : ascii) : ascii :=
  let n := nat_of_ascii c in
  if ((65 <=? n) && (n <=? 90))%nat then ascii_of_nat (n + 32) else c.

Fixpoint toLowerCase (s : string) : string :=
  match s with
  | EmptyString => EmptyString
  | String c s' => String (lowerChar c) (toLowerCase s')
  end.

Definition can (p : t) (thing action : string) : bool :=
  match p !! toLowerCase thing with
  | Some actions => bool_decide (action ∈ actions)
  | None => false
  end.

(** Granting [action] on [thing], as done when the snapshot is populated. *)
Definition grant (thing action : string) (p : t) : t :=
  <[toLowerCase thing := {[action]} ∪ default ∅ (p !! toLowerCase thing)]> p.
End Privileges.

(* ================================================================== *)
(** ** Client state and the promise monad *)
(* ================================================================== *)

Record Options : Type := mkOptions {
  username : option string;
  password : option string;
  sessionId : option string;
  keepLoggedIn : bool
}.

Record Magister : Type := mkMagister {
  _options : Options;
  school_url : string;                 (* [this.school.url] *)
  http_cookie : option string;         (* [this.http._cookie] *)
  profileInfo : option ProfileInfo.t;
  _privileges : option Privileges.t;
  _personUrl : option string;
  _pupilUrl : option string
}.

Definition set_http_cookie (c : string) (m : Magister) : Magister :=
  mkMagister (_options m) (school_url m) (Some c) (profileInfo m)
             (_privileges m) (_personUrl m) (_pupilUrl m).
Definition set_profileInfo (p : ProfileInfo.t) (m : Magister) : Magister :=
  mkMagister (_options m) (school_url m) (http_cookie m) (Some p)
             (_privileges m) (_personUrl m) (_pupilUrl m).
Definition set_privileges (p : Privileges.t) (m : Magister) : Magister :=
  mkMagister (_options m) (school_url m) (http_cookie m) (profileInfo m)
             (Some p) (_personUrl m) (_pupilUrl m).
Definition set_personUrl (u : string) (m : Magister) : Magister :=
  mkMagister (_options m) (school_url m) (http_cookie m) (profileInfo m)
             (_privileges m) (Some u) (_pupilUrl m).
Definition set_pupilUrl (u : string) (m : Magister) : Magister :=
  mkMagister (_options m) (school_url m) (http_cookie m) (profileInfo m)
             (_privileges m) (_personUrl m) (Some u).

Inductive Outcome (A : Type) : Type :=
| Resolved (a : A)        (* the returned promise resolves with [a] *)
| Rejected (e : JsError)  (* the returned promise rejects with [e] *)
| Thrown (e : JsError).   (* the call throws [e] synchronously *)
Arguments Resolved {A} a.
Arguments Rejected {A} e.
Arguments Thrown {A} e.

Record Result (A : Type) : Type := mkResult {
  state : Magister;
  trace : list Request;
  outcome : Outcome A
}.
Arguments mkResult {A} state trace outcome.
Arguments state {A} r.
Arguments trace {A} r.
Arguments outcome {A} r.

Definition Async (A : Type) : Type := Magister -> Result A.

Module Promise.

Definition resolve {A} (a : A) : Async A := fun this => mkResult this [] (Resolved a).
Definition reject {A} (e : JsError) : Async A := fun this => mkResult this [] (Rejected e).
Definition throw {A} (e : JsError) : Async A := fun this => mkResult this [] (Thrown e).

(** A synchronous computation run inside a callback: an exception rejects
    the promise of the enclosing [then]. *)
Definition try_ {A} (x : JsError + A) : Async A :=
  match x with inl e => reject e | inr a => resolve a end.

(** [p.then(f)]: an exception thrown by the callback rejects. *)
Definition then_ {A B} (p : Async A) (f : A -> Async B) : Async B := fun this =>
  let r := p this in
  match outcome r with
  | Resolved a =>
      let r' := f a (state r) in
      mkResult (state r') (trace r ++ trace r')
        (match outcome r' with Thrown e => Rejected e | o => o end)
  | Rejected e => mkResult (state r) (trace r) (Rejected e)
  | Thrown e => mkResult (state r) (trace r) (Thrown e)
  end.

(** [p.catch(h)] *)
Definition catch_ {A} (p : Async A) (h : JsError -> Async A) : Async A := fun this =>
  let r := p this in
  match outcome r with
  | Rejected e =>
      let r' := h e (state r) in
      mkResult (state r') (trace r ++ trace r')
        (match outcome r' with Thrown e' => Rejected e' | o => o end)
  | _ => r
  end.

Definition modify (f : Magister -> Magister) : Async unit := fun this =>
  mkResult (f this) [] (Resolved tt).

(** A rejection that needed no response from the network is delivered
    before any that did. *)
Definition early {A} (r : Result A) : bool :=
  match outcome r, trace r with
  | Rejected _, [] => true
  | _, _ => false
  end.

(** [Promise.all([p, q])]: both are started, [p] first; the result rejects
    with the rejection delivered first. *)
Definition all2 {A B} (p : Async A) (q : Async B) : Async (A * B) := fun this =>
  let r1 := p this in
  match outcome r1 with
  | Thrown e => mkResult (state r1) (trace r1) (Thrown e)
  | _ =>
      let r2 := q (state r1) in
      mkResult (state r2) (trace r1 ++ trace r2)
        match outcome r1, outcome r2 with
        | _, Thrown e => Thrown e
        | Thrown e, _ => Thrown e
        | Resolved a, Resolved b => Resolved (a, b)
        | Rejected e, Resolved _ => Rejected e
        | Resolved _, Rejected e => Rejected e
        | Rejected e1, Rejected e2 =>
            if early r1 then Rejected e1
            else if early r2 then Rejected e2 else Rejected e1
        end
  end.

(** The results of starting every promise of a list, left to right; a
    synchronous exception stops the evaluation of the array literal. *)
Fixpoint start {A} (ps : list (Async A)) (this : Magister) : list (Result A) :=
  match ps with
  | [] => []
  | p :: ps' =>
      let r := p this in
      match outcome r with
      | Thrown _ => [r]
      | _ => r :: start ps' (state r)
      end
  end.

Definition rejection {A} (r : Result A) : option JsError :=
  match outcome r with Rejected e => Some e | _ => None end.
Definition exception {A} (r : Result A) : option JsError :=
  match outcome r with Thrown e => Some e | _ => None end.
Definition value {A} (r : Result A) : option A :=
  match outcome r with Resolved a => Some a | _ => None end.

(** [Promise.all(ps)] *)
Definition all {A} (ps : list (Async A)) : Async (list A) := fun this =>
  let rs := start ps this in
  mkResult (default this (state <$> last rs)) (List.concat (trace <$> rs))
    match head (omap exception rs) with
    | Some e => Thrown e
    | None =>
        match head (omap rejection (List.filter early rs)),
              head (omap rejection rs) with
        | Some e, _ => Rejected e
        | None, Some e => Rejected e
        | None, None => Resolved (omap value rs)
        end
    end.

End Promise.

(** [p >>= f] is [p.then(f)]; chains associate to the left, as in the source. *)
Notation "p >>= f" := (Promise.then_ p f) (at level 50, left associativity).

(* ================================================================== *)
(** ** The [Magister] class *)
(* ================================================================== *)

(** What the client is linked against: the transport ([http.js]), the
    helpers of [util.js], the constructors of the model classes and the
    host's rendering of dates, of numbers beyond the safe integers and of
    built-in functions.  None of them is part of the sources; they are
    parameters of the embedding. *)
Record Env : Type := mkEnv {
  (** the portal, as seen through [http.get], [http.post], [http.delete] *)
  transport : Request -> JsError + Response;
  (** [person.getFilled(type)], with the requests it issues *)
  getFilled : Person.t -> string -> Async Person.t;
  (** [util.date]: the date-only (midnight) value of a date; applied to
      anything but a date it is taken to throw a [TypeError] *)
  util_date : Z -> Z;
  (** [util.urlDateConvert]: the portal's date format for URLs; applied to
      [undefined] it is taken to throw a [TypeError] *)
  util_urlDateConvert : Z -> string;
  (** [Date.prototype.toString], which depends on the host's time zone *)
  Date_toString : Z -> string;
  (** [Number.prototype.toString] beyond the safe integers *)
  largeNumber : Z -> string;
  (** [Function.prototype.toString] of the built-in function of that name:
      a text of the host's, of the form [function name() { [native code] }] *)
  nativeFunction : string -> string;
  (** the message of the error [Privileges#needs] rejects with *)
  permissionMessage : string -> string -> string;
  Appointment_new : data -> Appointment.t;
  AbsenceInfo_new : data -> AbsenceInfo.t;
  Course_new : data -> Course.t;
  MessageFolder_new : data -> MessageFolder.t;
  Person_new : data -> Person.t;
  ProfileInfo_new : data -> ProfileInfo.t;
  Privileges_new : data -> Privileges.t
}.

Section Client.

Context (env : Env).

(** *** Privilege check and transport *)

(** Modelled from the spec: [Privileges#needs] ([privileges.js] is not part
    of the sources): resolves when the snapshot grants [action] on [thing],
    rejects with a [PermissionError] otherwise; no request is issued. *)
Definition needs (p : Privileges.t) (thing action : string) : Async unit :=
  if Privileges.can p thing action then Promise.resolve tt
  else Promise.reject (mkError PermissionError (permissionMessage env action thing)).

Definition http_request (m : Method) (u : string) (b : option (gmap string data))
  : Async Response := fun this =>
  let req := mkRequest m u b (http_cookie this) in
  mkResult this [req]
    match transport env req with
    | inl e => Rejected e
    | inr r => Resolved r
    end.

Definition http_get (u : string) : Async Response := http_request GET u None.
Definition http_post (u : string) (b : gmap string data) : Async Response :=
  http_request POST u (Some b).
Definition http_delete (u : string) : Async Response := http_request DELETE u None.

(** [res.json()] *)
Definition json (res : Response) : Async data := Promise.try_ (json_body res).

(** [res.Items.map(f)] *)
Definition mapItems {A} (f : data -> A) (res : data) : Async (list A) :=
  Promise.try_
    match prop res "Items" with
    | inl e => inl e
    | inr items =>
        match asArray items with
        | inl e => inl e
        | inr l => inr (f <$> l)
        end
    end.

(** Reading [this._privileges.needs] before a login throws. *)
Definition notLoggedIn : JsError :=
  mkError TypeError "Cannot read property 'needs' of undefined".

(** [String(d)], as used by [+] on a string and by template literals. *)
Fixpoint toString (d : data) : string :=
  match d with
  | Prim v => toStr (Date_toString env) (largeNumber env) v
  | Arr l => join "," ((fun x => if nullish x then "" else toString x) <$> l)
  | Obj _ => "[object Object]"
  end.

(** *** [appointments] *)

(** A destructured option with a default: the default is used when the
    property is [undefined]. *)
Definition optionOr (o : gmap string data) (k : string) (dflt : bool) : data :=
  match get o k with
  | Prim VUndefined => Prim (VBool dflt)
  | d => d
  end.

(** The cross-linking loop: each appointment gets the first absence whose
    appointment has its id. *)
Definition linkAbsences (absences : list AbsenceInfo.t) (appointments : list Appointment.t)
  : list Appointment.t :=
  (fun a =>
     Appointment.set_absenceInfo
       (find (fun i => Appointment.id (AbsenceInfo.appointment i) =? Appointment.id a) absences)
       a) <$> appointments.

Definition fillTeachers (a : Appointment.t) : Async Appointment.t :=
  Promise.all ((fun t => getFilled env t "teacher") <$> Appointment.teachers a)
  >>= (fun teachers => Promise.resolve (Appointment.set_teachers teachers a)).

(** [_(arguments).filter(_.isDate).sortBy().value()] *)
Definition dateArguments (arguments : list data) : list Z :=
  sortBy (fun t => t) (omap isDate arguments).

(** [_.find(arguments, _.isPlainObject) || {}] *)
Definition optionsArgument (arguments : list data) : gmap string data :=
  default ∅ (head (omap isPlainObject arguments)).

(** Lines 65-69. *)
Definition appointmentsPromise (privileges : Privileges.t) (appointmentsUrl : string)
  : Async (list Appointment.t) :=
  needs privileges "afspraken" "read"
  >>= (fun _ => http_get appointmentsUrl)
  >>= json
  >>= mapItems (Appointment_new env).

(** Lines 75-78: the absence fetch, before any [catch]. *)
Definition absencesFetch (privileges : Privileges.t) (absencesUrl : string)
  : Async (list AbsenceInfo.t) :=
  needs privileges "Absenties" "read"
  >>= (fun _ => http_get absencesUrl)
  >>= json
  >>= mapItems (AbsenceInfo_new env).

(** Lines 72-83. *)
Definition absencesPromise (privileges : Privileges.t) (absencesUrl : string)
  (fetchAbsences ignoreAbsenceErrors : data) : Async (list AbsenceInfo.t) :=
  if truthy fetchAbsences then
    if truthy ignoreAbsenceErrors
    then Promise.catch_ (absencesFetch privileges absencesUrl) (fun _ => Promise.resolve [])
    else absencesFetch privileges absencesUrl
  else Promise.resolve [].

Definition appointmentsUrl (this : Magister) (from to : Z) : string :=
  tmpl (_personUrl this) +:+ "/afspraken?van=" +:+ util_urlDateConvert env from
  +:+ "&tot=" +:+ util_urlDateConvert env to.

Definition absencesUrl (this : Magister) (from to : Z) : string :=
  tmpl (_personUrl this) +:+ "/absenties?van=" +:+ util_urlDateConvert env from
  +:+ "&tot=" +:+ util_urlDateConvert env to.

Definition appointments (arguments : list data) : Async (list Appointment.t) := fun this =>
  (* extract options *)
  let options := optionsArgument arguments in
  let fillPersons := optionOr options "fillPersons" false in
  let fetchAbsences := optionOr options "fetchAbsences" true in
  let ignoreAbsenceErrors := optionOr options "ignoreAbsenceErrors" true in
  (* extract dates *)
  let dates := dateArguments arguments in
  match dates !! 0%nat with
  | None =>
      (* [util.urlDateConvert(undefined)] *)
      Promise.throw (mkError TypeError "Cannot read property of undefined") this
  | Some from =>
      let to := default from (dates !! 1%nat) in
      match _privileges this with
      | None => Promise.throw notLoggedIn this
      | Some privileges =>
          (Promise.all2
             (appointmentsPromise privileges (appointmentsUrl this from to))
             (absencesPromise privileges (absencesUrl this from to)
                fetchAbsences ignoreAbsenceErrors)
           >>= (fun '(appointments, absences) =>
                 Promise.resolve (sortBy Appointment.start (linkAbsences absences appointments)))
           >>= (fun appointments =>
                 if negb (truthy fillPersons) then Promise.resolve appointments
                 else Promise.all (fillTeachers <$> appointments))) this
      end
  end.

(** *** [courses], [messageFolders] *)

Definition courses : Async (list Course.t) := fun this =>
  match _privileges this with
  | None => Promise.throw notLoggedIn this
  | Some privileges =>
      (needs privileges "aanmeldingen" "read"
       >>= (fun _ => http_get (tmpl (_personUrl this) +:+ "/aanmeldingen"))
       >>= json
       >>= mapItems (Course_new env)
       >>= (fun items => Promise.resolve (sortBy Course.start items))) this
  end.

Definition messageFolders : Async (list MessageFolder.t) := fun this =>
  match _privileges this with
  | None => Promise.throw notLoggedIn this
  | Some privileges =>
      (needs privileges "berichten" "read"
       >>= (fun _ => http_get (tmpl (_personUrl this) +:+ "/berichten/mappen"))
       >>= json
       >>= mapItems (MessageFolder_new env)) this
  end.

(** *** [createAppointment] *)

Definition required : list string := ["description"; "start"; "end"].

Definition missingRequired : JsError :=
  mkError GenericError
    ("Not all required fields for `options` are given, required are: [ "
     +:+ join ", " required +:+ " ]").

(** [new Date(t) + n]: the [+] of ECMAScript converts a [Date] operand to a
    primitive with no hint, which for dates is its string; the sum is then
    a string concatenation. *)
Definition Date_plus_Number (t n : Z) : data :=
  Prim (VStr (Date_toString env t +:+ Number_toString (largeNumber env) n)).

(** Lines 146-149, the [fullDay] branch: the caller's object after the two
    assignments, or the exception of [util.date] on something that is not a
    date. *)
Definition fullDay (options : gmap string data) : JsError + gmap string data :=
  match get options "start" with
  | Prim (VDate start) =>
      let options := <["start" := Prim (VDate (util_date env start))]> options in
      match get options "start" with
      | Prim (VDate t) =>
          inr (<["end" := Date_plus_Number t (1000 * 60 * 60 * 24)]> options)
      | _ => inl (mkError TypeError "getTime is not a function")
      end
  | _ => inl (mkError TypeError "util.date: not a date")
  end.

(** [(options.content || '').trim()], then escaped when not empty. *)
Definition Inhoud (options : gmap string data) : JsError + data :=
  match or_ (get options "content") (Prim (VStr "")) with
  | Prim (VStr content) =>
      let content := trim content in
      inr (if (0 <? String.length content)%nat then Prim (VStr (escape content)) else null)
  | _ => inl (mkError TypeError "trim is not a function")
  end.

Definition static : gmap string data :=
  <["InfoType" := Prim (VNum 0)]> (
  <["WeergaveType" := Prim (VNum 1)]> (
  <["Status" := Prim (VNum 2)]> (
  <["HeeftBijlagen" := Prim (VBool false)]> (
  <["Bijlagen" := null]> (
  <["LesuurVan" := null]> (
  <["LesuurTotMet" := null]> (
  <["Aantekening" := null]> (
  <["Afgerond" := Prim (VBool false)]> (
  <["Vakken" := null]> (
  <["Docenten" := null]> (
  <["Links" := null]> (
  <["Id" := Prim (VNum 0)]> (
  <["Lokalen" := null]> (
  <["Groepen" := null]> (
  <["OpdrachtId" := Prim (VNum 0)]> ∅))))))))))))))).

Definition payload (options : gmap string data) : JsError + gmap string data :=
  match toJSON (get options "start") with
  | inl e => inl e
  | inr Start =>
      match toJSON (get options "end") with
      | inl e => inl e
      | inr Einde =>
          match Inhoud options with
          | inl e => inl e
          | inr inhoud =>
              inr (<["Omschrijving" := get options "description"]> (
                   <["Start" := Start]> (
                   <["Einde" := Einde]> (
                   <["Lokatie" := or_ (get options "location") (Prim (VStr ""))]> (
                   <["Inhoud" := inhoud]> (
                   <["Type" := or_ (get options "type") (Prim (VNum 1))]> (
                   <["DuurtHeleDag" := or_ (get options "fullDay") (Prim (VBool false))]>
                   static)))))))
          end
      end
  end.

(** The result is the caller's [options] object as the call leaves it,
    together with what the call does. *)
Definition createAppointment (options : gmap string data)
  : gmap string data * Async Appointment.t :=
  if existsb (fun key => nullish (get options key)) required then
    (options, Promise.reject missingRequired)
  else
    match (if truthy (get options "fullDay") then fullDay options else inr options) with
    | inl e => (options, Promise.throw e)
    | inr options =>
        (options,
         match payload options with
         | inl e => Promise.throw e
         | inr payload => fun this =>
             match _privileges this with
             | None => Promise.throw notLoggedIn this
             | Some privileges =>
                 (needs privileges "afspraken" "create"
                  >>= (fun _ => http_post (tmpl (_personUrl this) +:+ "/afspraken") payload)
                  >>= json
                  >>= (fun res =>
                         Promise.try_
                           match prop res "Url" with
                           | inl e => inl e
                           | inr Url =>
                               inr (Appointment.set_url
                                      (school_url this +:+ toString Url)
                                      (Appointment_new env (Obj payload)))
                           end)) this
             end
         end)
    end.

(** *** [persons] *)

(** The names every object inherits from [Object.prototype]: a property
    read on an object literal finds them when the literal has no such key
    of its own. *)
Definition Object_prototype : list string :=
  ["constructor"; "__defineGetter__"; "__defineSetter__"; "hasOwnProperty";
   "__lookupGetter__"; "__lookupSetter__"; "isPrototypeOf"; "propertyIsEnumerable";
   "toString"; "valueOf"; "__proto__"; "toLocaleString"].

(** Lines 220-224, [({teacher: .., pupil: .., project: ..})[type] || 'Overig'],
    as the template literal of the url renders it.  One of the three keys
    gives its code.  A name inherited from [Object.prototype] gives a
    built-in, which is truthy and so is kept: [__proto__] the prototype
    itself, an object; [constructor] the function [Object]; any other the
    function of that name.  Every other name gives [undefined], so
    ['Overig']. *)
Definition personType (type : string) : string :=
  if String.eqb type "teacher" then "Personeel"
  else if String.eqb type "pupil" then "Leerling"
  else if String.eqb type "project" then "Project"
  else if String.eqb type "__proto__" then "[object Object]"
  else if String.eqb type "constructor" then nativeFunction env "Object"
  else if bool_decide (type ∈ Object_prototype) then nativeFunction env type
  else "Overig".

(** The body of [persons], with the method it calls on [this] for the two
    sub-queries as a parameter. *)
Definition persons_body (persons : option string -> option string -> Async (list Person.t))
  (query type : option string) : Async (list Person.t) := fun this =>
  let query := match query with Some query => trim query | None => "" end in
  if (String.length query <? 3)%nat then Promise.resolve [] this
  else
    match type with
    | None =>
        (Promise.all2 (persons (Some query) (Some "teacher"))
                      (persons (Some query) (Some "pupil"))
         >>= (fun '(teachers, pupils) => Promise.resolve (teachers ++ pupils)%list)) this
    | Some type =>
        let type := personType type in
        let query := replaceSpaces query in
        let url :=
          tmpl (_personUrl this) +:+ "/contactpersonen?contactPersoonType=" +:+ type
          +:+ "&q=" +:+ query in
        match _privileges this with
        | None => Promise.throw notLoggedIn this
        | Some privileges =>
            (needs privileges "contactpersonen" "read"
             >>= (fun _ => http_get url)
             >>= json
             >>= mapItems (fun p => Person.set_filled true (Person_new env p))) this
        end
    end.

(** The recursion of [persons] is one level deep: the sub-queries are given
    a type.  Two unfoldings of the body are the method. *)
Definition persons : option string -> option string -> Async (list Person.t) :=
  persons_body (persons_body (fun _ _ => Promise.resolve [])).

(** *** [login] *)

Definition setSessionId (sessionId : string) : Async string := fun this =>
  let cookie :=
    "SESSION_ID=" +:+ sessionId +:+ "; M6UserName=" +:+ tmpl (username (_options this)) in
  mkResult (set_http_cookie cookie this) [] (Resolved sessionId).

(** [/[a-z\d-]+/.exec(r.headers.get('set-cookie'))[0]]; a missing header is
    [null], which [exec] reads as the string [null]. *)
Definition sessionIdOf (r : Response) : JsError + string :=
  match execId (default "null" (set_cookie r)) with
  | Some id => inr id
  | None => inl (mkError TypeError "Cannot read property '0' of null")
  end.

Definition invalidCredentials : list string :=
  [ "Ongeldig account of verkeerde combinatie van gebruikersnaam en wachtwoord. Probeer het nog eens of neem contact op met de applicatiebeheerder van de school.";
    "Je gebruikersnaam en/of wachtwoord is niet correct." ].

(** The handler of the [catch] at lines 273-280. *)
Definition rethrow (err : JsError) : JsError :=
  if existsb (String.eqb (message err)) invalidCredentials
  then mkError AuthError (message err)
  else err.

Definition ofOption (x : option string) : data :=
  match x with Some s => Prim (VStr s) | None => undefined end.

Definition credentials (options : Options) : gmap string data :=
  <["Gebruikersnaam" := ofOption (username options)]> (
  <["Wachtwoord" := ofOption (password options)]> (
  <["IngelogdBlijven" := Prim (VBool (keepLoggedIn options))]> ∅)).

(** [res.Groep[0].Privileges] *)
Definition firstGroupPrivileges (res : data) : JsError + data :=
  match prop res "Groep" with
  | inl e => inl e
  | inr Groep =>
      match index0 Groep with
      | inl e => inl e
      | inr group => prop group "Privileges"
      end
  end.

(** The callback run on the account response (lines 288-298): the
    assignments to [this] made before an exception are kept. *)
Definition account (baseUrl sessionId : string) (res : data) : Async string := fun this =>
  match prop res "Persoon" with
  | inl e => Promise.throw e this
  | inr Persoon =>
      match prop Persoon "Id" with
      | inl e => Promise.throw e this
      | inr id =>
          let this := set_profileInfo (ProfileInfo_new env Persoon) this in
          match firstGroupPrivileges res with
          | inl e => Promise.throw e this
          | inr privileges =>
              let this := set_privileges (Privileges_new env privileges) this in
              let this := set_personUrl (baseUrl +:+ "/api/personen/" +:+ toString id) this in
              let this := set_pupilUrl (baseUrl +:+ "/api/leerlingen/" +:+ toString id) this in
              Promise.resolve sessionId this
          end
      end
  end.

(** Lines 261-272: the negotiation of a new session, before the [catch]. *)
Definition negotiate (this : Magister) : Async string :=
  let options := _options this in
  let baseUrl := replaceScheme (school_url this) in
  let deleteUrl := baseUrl +:+ "/api/sessies/huidige" in
  let postUrl := baseUrl +:+ "/api/sessies" in
  (* delete the current session *)
  http_delete deleteUrl
  >>= (fun r =>
         Promise.try_ (sessionIdOf r)
         >>= setSessionId
         (* create a new session *)
         >>= (fun _ => http_post postUrl (credentials options)))
  >>= (fun r => Promise.try_ (sessionIdOf r)).

(** [!forceNew && options.sessionId]: the session id when the test passes
    (an absent or empty id is falsy). *)
Definition suppliedSession (forceNew : bool) (options : Options) : option string :=
  match sessionId options with
  | Some id => if negb forceNew && truthy (Prim (VStr id)) then Some id else None
  | None => None
  end.

Definition login (forceNew : bool) : Async string := fun this =>
  let options := _options this in
  let baseUrl := replaceScheme (school_url this) in
  let promise :=
    match suppliedSession forceNew options with
    | Some id => Promise.resolve id
    | None =>
        Promise.catch_ (negotiate this) (fun err => Promise.throw (rethrow err))
    end in
  (promise
   >>= setSessionId
   >>= (fun sessionId =>
          http_get (baseUrl +:+ "/api/account")
          >>= json
          >>= account baseUrl sessionId)) this.

End Client.

(* ================================================================== *)
(** ** The module functions [magister] and [getSchools] *)
(* ================================================================== *)

(** The options object given to [magister]: an absent property is [None];
    a school is an object with a [url], given here by that url. *)
Module ClientOptions.
Record t : Type := mk {
  school : option string;
  username : option string;
  password : option string;
  sessionId : option string;
  keepLoggedIn : option bool;
  login : option bool
}.
End ClientOptions.

(** ToBoolean of an optional string property. *)
Definition given (x : option string) : bool :=
  match x with
  | Some s => truthy (Prim (VStr s))
  | None => false
  end.

(** [_.defaults(options, {keepLoggedIn: true, login: true})] *)
Definition defaults (options : ClientOptions.t) : ClientOptions.t :=
  ClientOptions.mk
    (ClientOptions.school options) (ClientOptions.username options)
    (ClientOptions.password options) (ClientOptions.sessionId options)
    (Some (default true (ClientOptions.keepLoggedIn options)))
    (Some (default true (ClientOptions.login options))).

Definition requiredOptions : JsError :=
  mkError GenericError "school, username&password or sessionId are required.".

(** [new Magister(options, options.school, new Http())] *)
Definition Magister_new (options : ClientOptions.t) (school : string) : Magister :=
  mkMagister
    (mkOptions (ClientOptions.username options) (ClientOptions.password options)
       (ClientOptions.sessionId options)
       (default true (ClientOptions.keepLoggedIn options)))
    school None None None None None.

(** [s.replace(/\d/g, '')] *)
Fixpoint stripDigits (s : string) : string :=
  match s with
  | EmptyString => EmptyString
  | String c s' =>
      let n := nat_of_ascii c in
      if ((48 <=? n) && (n <=? 57))%nat then stripDigits s'
      else String c (stripDigits s')
  end.

Section Module_.

Context (env : Env).

(** The result is the caller's [options] object as [_.defaults] leaves it,
    the requests issued, and the outcome: the promise resolves with the
    client [m], in the state the login left it in. *)
Definition magister (options : ClientOptions.t)
  : ClientOptions.t * (list Request * Outcome Magister) :=
  let options := defaults options in
  match ClientOptions.school options with
  | Some school =>
      if given (ClientOptions.sessionId options)
         || (given (ClientOptions.username options)
             && given (ClientOptions.password options))
      then
        let m := Magister_new options school in
        if default false (ClientOptions.login options) then
          let r := login env false m in
          (options,
           (trace r,
            match outcome r with
            | Resolved _ => Resolved (state r)
            | Rejected e => Rejected e
            | Thrown e => Thrown e
            end))
        else (options, ([], Resolved m))
      else (options, ([], Rejected requiredOptions))
  | None => (options, ([], Rejected requiredOptions))
  end.

(** [getSchools] goes through the global [fetch], not through the client:
    the result is the list of the urls fetched and the outcome. *)
Context {School : Type} (fetch : string -> JsError + Response)
        (School_new : data -> School).

Definition getSchools (query : string) : list string * Outcome (list School) :=
  let query := stripDigits query in
  let query := trim query in
  let query := replaceSpaces query in
  if (String.length query <? 3)%nat then ([], Resolved [])
  else
    let u := "https://mijn.magister.net/api/schools?filter=" +:+ query in
    ([u],
     match fetch u with
     | inl e => Rejected e
     | inr res =>
         match json_body res with
         | inl e => Rejected e
         | inr schools =>
             match asArray schools with
             | inl e => Rejected e
             | inr l => Resolved (School_new <$> l)
             end
         end
     end).

End Module_.

(* ================================================================== *)
(** ** Observations used in the statements *)
(* ================================================================== *)

Section Observations.

Context (env : Env).

(** The shape shared by every read operation: privilege check, GET, JSON
    decoding, construction of the items. *)
Definition privilegedGet {A} (f : data -> A) (p : Privileges.t) (thing : string) (u : string)
    (this : Magister) : Result (list A) :=
  if Privileges.can p thing "read" then
    mkResult this [mkRequest GET u None (http_cookie this)]
      match transport env (mkRequest GET u None (http_cookie this)) with
      | inl e => Rejected e
      | inr res =>
          match json_body res with
          | inl e => Rejected e
          | inr d =>
              match prop d "Items" with
              | inl e => Rejected e
              | inr items =>
                  match asArray items with
                  | inl e => Rejected e
                  | inr l => Resolved (f <$> l)
                  end
              end
          end
      end
  else mkResult this [] (Rejected (mkError PermissionError (permissionMessage env "read" thing))).

(** A request for resource [resource] of the logged-in person. *)
Definition requestFor (this : Magister) (resource : string) (req : Request) : Prop :=
  exists rest, url req = tmpl (_personUrl this) +:+ "/" +:+ resource +:+ rest.

(** Filling the teachers changes nothing else of an appointment. *)
Definition sameButTeachers (a b : Appointment.t) : Prop :=
  exists teachers, b = Appointment.set_teachers teachers a.

(** The absence records a call fetched: the value of its absence promise. *)
Definition fetchedAbsences (arguments : list data) (this : Magister) : list AbsenceInfo.t :=
  match dateArguments arguments !! 0%nat, _privileges this with
  | Some from, Some privileges =>
      let to := default from (dateArguments arguments !! 1%nat) in
      let options := optionsArgument arguments in
      default []
        (Promise.value
           (absencesPromise env privileges (absencesUrl env this from to)
              (optionOr options "fetchAbsences" true)
              (optionOr options "ignoreAbsenceErrors" true) this))
  | _, _ => []
  end.

Definition matches (a : Appointment.t) (i : AbsenceInfo.t) : bool :=
  Appointment.id (AbsenceInfo.appointment i) =? Appointment.id a.

(** The request for the account, sent with the cookie of session [id]. *)
Definition accountRequest (this : Magister) (id : string) : Request :=
  mkRequest GET (replaceScheme (school_url this) +:+ "/api/account") None
    (Some ("SESSION_ID=" +:+ id +:+ "; M6UserName=" +:+ tmpl (username (_options this)))).

(** An account response the callback of [login] decodes without error. *)
Definition decodable (res : data) : Prop :=
  exists Persoon id privileges,
    prop res "Persoon" = inr Persoon /\ prop Persoon "Id" = inr id /\
    firstGroupPrivileges res = inr privileges.

(** An operation that leaves the client as it is and whose requests all
    have method [m] and carry the cookie the client holds. *)
Definition quiet {A} (m : Method) (p : Async A) : Prop :=
  forall s,
    state (p s) = s /\
    forall req, req ∈ trace (p s) -> method req = m /\ cookie req = http_cookie s.

(** What the last steps of [createAppointment] do with payload [P]: the
    privilege check, the POST and the construction of the result. *)
Definition posting (this : Magister) (P : gmap string data) : Result Appointment.t :=
  match _privileges this with
  | None => mkResult this [] (Thrown notLoggedIn)
  | Some p =>
      if Privileges.can p "afspraken" "create" then
        let req :=
          mkRequest POST (tmpl (_personUrl this) +:+ "/afspraken") (Some P)
            (http_cookie this) in
        mkResult this [req]
          match transport env req with
          | inl e => Rejected e
          | inr res =>
              match json_body res with
              | inl e => Rejected e
              | inr body =>
                  match prop body "Url" with
                  | inl e => Rejected e
                  | inr Url =>
                      Resolved (Appointment.set_url (school_url this +:+ toString env Url)
                                  (Appointment_new env (Obj P)))
                  end
              end
          end
      else
        mkResult this []
          (Rejected (mkError PermissionError (permissionMessage env "create" "afspraken")))
  end.

(** [s] has an occurrence of the character [c]. *)
Fixpoint hasChar (c : ascii) (s : string) : bool :=
  match s with
  | EmptyString => false
  | String c' s' => Ascii.eqb c c' || hasChar c s'
  end.

(** The cookie header of session [id] for the user of [this]. *)
Definition cookieOf (this : Magister) (id : string) : string :=
  "SESSION_ID=" +:+ id +:+ "; M6UserName=" +:+ tmpl (username (_options this)).

Definition deleteRequest (this : Magister) : Request :=
  mkRequest DELETE (replaceScheme (school_url this) +:+ "/api/sessies/huidige") None
    (http_cookie this).

Definition postRequest (this : Magister) (id : string) : Request :=
  mkRequest POST (replaceScheme (school_url this) +:+ "/api/sessies")
    (Some (credentials (_options this))) (Some (cookieOf this id)).

(** What [negotiate] does, step by step. *)
Definition negotiated (this : Magister) : Result string :=
  match transport env (deleteRequest this) with
  | inl e => mkResult this [deleteRequest this] (Rejected e)
  | inr r =>
      match sessionIdOf r with
      | inl e => mkResult this [deleteRequest this] (Rejected e)
      | inr id =>
          mkResult (set_http_cookie (cookieOf this id) this)
            [deleteRequest this; postRequest this id]
            match transport env (postRequest this id) with
            | inl e => Rejected e
            | inr r' =>
                match sessionIdOf r' with
                | inl e => Rejected e
                | inr id' => Resolved id'
                end
            end
      end
  end.

(** What [login] does once the session id is known: the cookie is set and
    the account is fetched and decoded. *)
Definition adopted (this : Magister) (id : string) (s : Magister) : Result string :=
  let s := set_http_cookie (cookieOf s id) s in
  let req :=
    mkRequest GET (replaceScheme (school_url this) +:+ "/api/account") None
      (http_cookie s) in
  match transport env req with
  | inl e => mkResult s [req] (Rejected e)
  | inr res =>
      match json_body res with
      | inl e => mkResult s [req] (Rejected e)
      | inr body =>
          let r := account env (replaceScheme (school_url this)) id body s in
          mkResult (state r) [req]
            match outcome r with Thrown e => Rejected e | o => o end
      end
  end.


(** The url of the query of type [type] for the trimmed query [query]. *)
Definition personsUrl (this : Magister) (type query : string) : string :=
  tmpl (_personUrl this) +:+ "/contactpersonen?contactPersoonType="
  +:+ personType env type +:+ "&q=" +:+ replaceSpaces query.

(** The last step of [appointments] (lines 95-106). *)
Definition filled (fillPersons : data) (appointments : list Appointment.t)
  : Async (list Appointment.t) :=
  if negb (truthy fillPersons) then Promise.resolve appointments
  else Promise.all (fillTeachers env <$> appointments).

(** The characters [\d] matches. *)
Definition isDigit (c : ascii) : bool :=
  let n := nat_of_ascii c in ((48 <=? n) && (n <=? 57))%nat.

End Observations.

(* ================================================================== *)
(** ** A concrete environment *)
(* ================================================================== *)

(** A host in the UTC time zone, simple model constructors and a small
    portal, on which the operations are run on examples. *)
Module Fixture.

Definition dayNames : list string := ["Sun"; "Mon"; "Tue"; "Wed"; "Thu"; "Fri"; "Sat"].
Definition monthNames : list string :=
  ["Jan"; "Feb"; "Mar"; "Apr"; "May"; "Jun"; "Jul"; "Aug"; "Sep"; "Oct"; "Nov"; "Dec"].

(** [Date.prototype.toString] in the UTC time zone. *)
Definition Date_toString (t : Z) : string :=
  let days := t / msPerDay in
  let '(y, m, d) := civil days in
  default "" (dayNames !! Z.to_nat ((days + 4) mod 7)) +:+ " " +:+
  default "" (monthNames !! Z.to_nat (m - 1)) +:+ " " +:+ pad 2 d +:+ " " +:+
  (if y <? 0 then "-" +:+ pad 4 (- y) else pad 4 y) +:+ " " +:+ timeOfDay t +:+
  " GMT+0000 (Coordinated Universal Time)".

(** The zeros an integer ends in, at most [fuel] of them, and what is left
    of it without them. *)
Fixpoint trailingZeros (fuel : nat) (n : Z) : Z * Z :=
  match fuel with
  | O => (n, 0)
  | S fuel =>
      if (n mod 10 =? 0) && negb (n =? 0)
      then let '(m, e) := trailingZeros fuel (n / 10) in (m, e + 1)
      else (n, 0)
  end.

(** [Number.prototype.toString] beyond the safe integers, for an integer
    of at most 15 significant digits (which is the shortest decimal of the
    double it is read as): all its digits below [1e21], and from there the
    significant digits with an exponent. *)
Definition largeNumber (n : Z) : string :=
  if Z.abs n <? 10 ^ 21 then pretty n
  else
    let '(m, _) := trailingZeros 400 (Z.abs n) in
    let digits := pretty m in
    let exponent := pretty (Z.of_nat (String.length (pretty (Z.abs n))) - 1) in
    (if n <? 0 then "-" else "") +:+
    match digits with
    | String d EmptyString => String d EmptyString
    | String d rest => String d ("." +:+ rest)
    | EmptyString => EmptyString
    end +:+ "e+" +:+ exponent.

(** [Function.prototype.toString] of a built-in function, as V8 writes
    it. *)
Definition nativeFunction (name : string) : string :=
  "function " +:+ name +:+ "() { [native code] }".

(** Modelled from the spec: [util.date] ([util.js] is not part of the
    sources), the "date-only (midnight-normalized) value" of a date; here in
    the UTC time zone. *)
Definition date (t : Z) : Z := t - t mod msPerDay.

(** Modelled from the spec: [util.urlDateConvert] ([util.js] is not part of
    the sources), a "date-only" rendering for the [van] and [tot] query
    parameters. *)
Definition urlDateConvert (t : Z) : string :=
  let '(y, m, d) := civil (t / msPerDay) in
  pad 4 y +:+ "-" +:+ pad 2 m +:+ "-" +:+ pad 2 d.

Definition num (d : data) (k : string) : Z :=
  match prop d k with
  | inr (Prim (VNum n)) => n
  | _ => 0
  end.

Definition items (d : data) (k : string) : list data :=
  match prop d k with
  | inr (Arr l) => l
  | _ => []
  end.

Definition str (d : data) : string :=
  match d with Prim (VStr s) => s | _ => "" end.

Definition Person_new (raw : data) : Person.t := Person.mk raw false.

(** The fixture portal gives the start of an appointment in milliseconds. *)
Definition Appointment_new (raw : data) : Appointment.t :=
  Appointment.mk (num raw "Id") (num raw "Start") (Person_new <$> items raw "Docenten")
    None None.

Definition AbsenceInfo_new (raw : data) : AbsenceInfo.t :=
  Appointment.mkAbsence raw
    (Appointment_new (match prop raw "Afspraak" with inr a => a | inl _ => undefined end)).

Definition Course_new (raw : data) : Course.t := Course.mk raw (num raw "Start").

Definition Privileges_new (raw : data) : Privileges.t :=
  foldr (fun x p =>
           foldr (fun a p => Privileges.grant (match prop x "Naam" with
                                               | inr n => str n
                                               | inl _ => ""
                                               end) (str a) p)
                 p (items x "AccessType"))
        ∅ (match raw with Arr l => l | _ => [] end).

Definition permissionMessage (action thing : string) : string :=
  "Account is not privileged to '" +:+ action +:+ "' '" +:+ thing +:+ "'".

Definition env (portal : Request -> JsError + Response) : Env :=
  mkEnv portal (fun p _ => Promise.resolve (Person.set_filled true p))
        date urlDateConvert Date_toString largeNumber nativeFunction permissionMessage
        Appointment_new AbsenceInfo_new Course_new MessageFolder.mk
        Person_new ProfileInfo.mk Privileges_new.

Definition obj (l : list (string * data)) : data := Obj (list_to_map l).

Definition appointment (id start : Z) : data :=
  obj [("Id", Prim (VNum id)); ("Start", Prim (VNum start))].

Definition absence (id appointmentId : Z) : data :=
  obj [("Id", Prim (VNum id));
       ("Afspraak", obj [("Id", Prim (VNum appointmentId))])].

Definition accountBody : data :=
  obj [("Persoon", obj [("Id", Prim (VNum 7))]);
       ("Groep", Arr [obj [("Privileges",
          Arr [obj [("Naam", Prim (VStr "Afspraken"));
                    ("AccessType", Arr [Prim (VStr "read"); Prim (VStr "create")])];
               obj [("Naam", Prim (VStr "Absenties"));
                    ("AccessType", Arr [Prim (VStr "read")])]])]])].

Definition ok (body : data) : JsError + Response := inr (mkResponse None (inr body)).

Definition down : JsError := mkError (OtherError "FetchError") "socket hang up".

(** The portal of school [https://school.nl]: person 7 has three
    appointments; the absence endpoint answers when [absencesUp]; the
    session endpoint accepts the password [geheim]. *)
Definition portal (absencesUp : bool) (req : Request) : JsError + Response :=
  match method req with
  | GET =>
      if String.eqb (url req) "https://school.nl/api/account" then ok accountBody
      else if String.eqb (url req)
                "https://school.nl/api/personen/7/afspraken?van=2018-03-10&tot=2018-03-12"
      then ok (obj [("Items", Arr [appointment 1 1520676000000;
                                   appointment 2 1520672400000;
                                   appointment 3 1520845200000])])
      else if String.eqb (url req)
                "https://school.nl/api/personen/7/absenties?van=2018-03-10&tot=2018-03-12"
      then if absencesUp
           then ok (obj [("Items", Arr [absence 50 3; absence 51 1; absence 52 3])])
           else inl down
      else inl (mkError (OtherError "FetchError") "404")
  | DELETE =>
      inr (mkResponse (Some "SESSION_ID=old-0; path=/") (inr null))
  | POST =>
      if String.eqb (url req) "https://school.nl/api/sessies" then
        match body req with
        | Some b =>
            match get b "Wachtwoord" with
            | Prim (VStr "geheim") =>
                inr (mkResponse (Some "SESSION_ID=new-1; path=/") (inr null))
            | _ => inl (mkError GenericError
                          "Je gebruikersnaam en/of wachtwoord is niet correct.")
            end
        | None => inl down
        end
      else ok (obj [("Url", Prim (VStr "/api/personen/7/afspraken/99"))])
  end.

Definition fresh (options : Options) : Magister :=
  mkMagister options "http://school.nl" None None None None None.

(** A client after a login as person 7, holding privileges [p]. *)
Definition loggedIn (p : Privileges.t) : Magister :=
  mkMagister (mkOptions (Some "leerling") (Some "geheim") None true)
             "http://school.nl" (Some "SESSION_ID=new-1; M6UserName=leerling")
             (Some (ProfileInfo.mk (obj [("Id", Prim (VNum 7))]))) (Some p)
             (Some "https://school.nl/api/personen/7")
             (Some "https://school.nl/api/leerlingen/7").

Definition allPrivileges : Privileges.t :=
  Privileges.grant "Afspraken" "read" (
  Privileges.grant "Afspraken" "create" (
  Privileges.grant "Absenties" "read" (
  Privileges.grant "Aanmeldingen" "read" (
  Privileges.grant "Berichten" "read" (
  Privileges.grant "ContactPersonen" "read" ∅))))).

End Fixture.

Module Examples.

Import Fixture.

Definition E : Env := env (portal true).

(** [{description: "d", start: 2018-03-10T00:04:05.123Z,
      end: 2018-03-10T12:00:00.000Z, fullDay: true}] *)
Definition fullDayOptions : gmap string data :=
  list_to_map [("description", Prim (VStr "d"));
               ("start", Prim (VDate 1520640245123));
               ("end", Prim (VDate 1520683200000));
               ("fullDay", Prim (VBool true))].

(** [{description: "d"}] *)
Definition onlyDescription : gmap string data :=
  list_to_map [("description", Prim (VStr "d"))].


End Examples.

Module Runs.

Import Fixture.

(** A client that may read absences only. *)
Definition absencesOnly : Magister := loggedIn (Privileges.grant "Absenties" "read" ∅).

(** A client with an empty privilege set. *)
Definition unprivileged : Magister := loggedIn ∅.

Definition everything : Magister := loggedIn allPrivileges.

(** [appointments(new Date("2018-03-12T09:00:00.001Z"),
                  new Date("2018-03-10T00:04:05.123Z"))] *)
Definition twoDates : list data :=
  [Prim (VDate 1520845200001); Prim (VDate 1520640245123)].

Definition fetchedAppointments : list Appointment.t :=
  [Appointment.mk 1 1520676000000 [] None None;
   Appointment.mk 2 1520672400000 [] None None;
   Appointment.mk 3 1520845200000 [] None None].

Definition wrongPassword : Magister :=
  fresh (mkOptions (Some "leerling") (Some "fout") None true).

Definition withSession : Magister :=
  fresh (mkOptions (Some "leerling") None (Some "abc") true).

(** A portal that also lists the courses, the message folders and the
    contacts of person 7. *)
Definition course (id start : Z) : data :=
  obj [("Id", Prim (VNum id)); ("Start", Prim (VNum start))].

Definition named (name : string) : data := obj [("Naam", Prim (VStr name))].

Definition lists (req : Request) : JsError + Response :=
  if String.eqb (url req) "https://school.nl/api/personen/7/aanmeldingen"
  then ok (obj [("Items", Arr [course 1 1504224000000; course 2 1472688000000;
                               course 3 1504224000000])])
  else if String.eqb (url req) "https://school.nl/api/personen/7/berichten/mappen"
  then ok (obj [("Items", Arr [named "Postvak IN"; named "Verzonden"])])
  else if String.eqb (url req)
            "https://school.nl/api/personen/7/contactpersonen?contactPersoonType=Personeel&q=ab+cd"
  then ok (obj [("Items", Arr [named "docent ab cd"])])
  else if String.eqb (url req)
            "https://school.nl/api/personen/7/contactpersonen?contactPersoonType=Leerling&q=ab+cd"
  then ok (obj [("Items", Arr [named "leerling ab cd"; named "leerling cd ab"])])
  else portal true req.

(** A portal whose account endpoint fails. *)
Definition refused : JsError :=
  mkError GenericError "Je gebruikersnaam en/of wachtwoord is niet correct.".

Definition accountDown (req : Request) : JsError + Response :=
  if String.eqb (url req) "https://school.nl/api/account" then inl refused
  else portal true req.

Definition rightPassword : Magister :=
  fresh (mkOptions (Some "leerling") (Some "geheim") None true).

(** [appointments(d1, d2, {ignoreAbsenceErrors: false})] *)
Definition strict : list data :=
  twoDates ++ [Obj (list_to_map [("ignoreAbsenceErrors", Prim (VBool false))])].

(** [appointments(d1, d2, {fetchAbsences: false})] *)
Definition noAbsences : list data :=
  twoDates ++ [Obj (list_to_map [("fetchAbsences", Prim (VBool false))])].

(** Three dates: the latest is ignored. *)
Definition threeDates : list data :=
  [Prim (VDate 1520845200001); Prim (VDate 1530000000000); Prim (VDate 1520640245123)].

(** [{description: "d", start: .., end: .., content: "  <b>1 & 2</b> "}] *)
Definition withContent : gmap string data :=
  list_to_map [("description", Prim (VStr "d"));
               ("start", Prim (VDate 1520640245123));
               ("end", Prim (VDate 1520683200000));
               ("content", Prim (VStr "  <b>1 & 2</b> "))].

(** A client that may read but not create appointments. *)
Definition readOnly : Magister := loggedIn (Privileges.grant "Afspraken" "read" ∅).

(** [magister({school, username: "leerling", password: "geheim"})] *)
Definition byPassword : ClientOptions.t :=
  ClientOptions.mk (Some "http://school.nl") (Some "leerling") (Some "geheim") None
    None None.

(** The school directory behind [getSchools]. *)
Definition directory (u : string) : JsError + Response :=
  ok (Arr [named "School " ]).

End Runs.

(* ================================================================== *)
(** ** Checks of the helpers on examples *)
(* ================================================================== *)

Example toISOString_epoch : toISOString 0 = "1970-01-01T00:00:00.000Z".
Proof. reflexivity. Qed.

Example toISOString_2018 :
  toISOString 1520640245123 = "2018-03-10T00:04:05.123Z".
Proof. vm_compute. reflexivity. Qed.

Example toISOString_leap : toISOString 1582934400000 = "2020-02-29T00:00:00.000Z".
Proof. vm_compute. reflexivity. Qed.

Example toISOString_before_epoch : toISOString (-1) = "1969-12-31T23:59:59.999Z".
Proof. vm_compute. reflexivity. Qed.

Example Number_toString_safe :
  toStr Fixture.Date_toString Fixture.largeNumber (VNum 9007199254740991)
  = "9007199254740991".
Proof. reflexivity. Qed.

Example Number_toString_1e21 :
  toStr Fixture.Date_toString Fixture.largeNumber (VNum (10 ^ 21)) = "1e+21".
Proof. vm_compute. reflexivity. Qed.

Example Number_toString_exponent :
  toStr Fixture.Date_toString Fixture.largeNumber (VNum (- 125 * 10 ^ 20)) = "-1.25e+22".
Proof. vm_compute. reflexivity. Qed.

Example personType_inherited :
  personType Examples.E "toString" = "function toString() { [native code] }"
  /\ personType Examples.E "__proto__" = "[object Object]"
  /\ personType Examples.E "pupil" = "Leerling".
Proof. repeat split. Qed.

Example trim_ex : trim "  ab cd  " = "ab cd".
Proof. reflexivity. Qed.

Example replaceSpaces_ex : replaceSpaces "ab   cd e" = "ab+cd+e".
Proof. reflexivity. Qed.

Example execId_ex : execId "SESSION_ID=abc-12; path=/" = Some "abc-12".
Proof. reflexivity. Qed.

Example replaceScheme_ex : replaceScheme "http://x.nl" = "https://x.nl".
Proof. reflexivity. Qed.

(** The recursion of [persons] closes after the two unfoldings: the method
    is a fixed point of its body. *)
Lemma persons_unfold (env : Env) (query type : option string) (this : Magister) :
  persons env query type this = persons_body env (persons env) query type this.
Proof. by destruct type. Qed.

(** A login with credentials: DELETE, POST, then the account. *)
Example login_negotiates :
  let r := login Examples.E false
             (Fixture.fresh (mkOptions (Some "leerling") (Some "geheim") None true)) in
  (method <$> trace r, cookie <$> trace r, outcome r, _personUrl (state r))
  = ([DELETE; POST; GET],
     [None; Some "SESSION_ID=old-0; M6UserName=leerling";
      Some "SESSION_ID=new-1; M6UserName=leerling"],
     Resolved "new-1", Some "https://school.nl/api/personen/7").
Proof. vm_compute. reflexivity. Qed.

(** [persons("ab  cd")]: the teachers are queried before the pupils. *)
Example persons_two_queries :
  url <$> trace (persons Examples.E (Some " ab  cd ") None Runs.everything)
  = ["https://school.nl/api/personen/7/contactpersonen?contactPersoonType=Personeel&q=ab+cd";
     "https://school.nl/api/personen/7/contactpersonen?contactPersoonType=Leerling&q=ab+cd"].
Proof. vm_compute. reflexivity. Qed.

(** An appointment that is not a full day is posted with both dates in ISO
    format. *)
Example createAppointment_posts :
  let options : gmap string data :=
    list_to_map [("description", Prim (VStr "d"));
                 ("start", Prim (VDate 1520640245123));
                 ("end", Prim (VDate 1520683200000))] in
  let r := snd (createAppointment Examples.E options) Runs.everything in
  ((fun q => (method q, url q,
              (fun b => (b !! "Start", b !! "Einde", b !! "DuurtHeleDag")) <$> body q))
   <$> trace r,
   Appointment._url <$> Promise.value r)
  = ([(POST, "https://school.nl/api/personen/7/afspraken",
       Some (Some (Prim (VStr "2018-03-10T00:04:05.123Z")),
             Some (Prim (VStr "2018-03-10T12:00:00.000Z")),
             Some (Prim (VBool false))))],
     Some (Some "http://school.nl/api/personen/7/afspraken/99")).
Proof. vm_compute. reflexivity. Qed.

(* ================================================================== *)
(** ** Properties of [createAppointment] *)
(* ================================================================== *)

Section CreateAppointment.

Context (env : Env).

Lemma get_insert_eq (o : gmap string data) k d : get (<[k := d]> o) k = d.
Proof. unfold get. by rewrite lookup_insert_eq. Qed.

Lemma get_insert_ne (o : gmap string data) k k' d :
  k ≠ k' -> get (<[k := d]> o) k' = get o k'.
Proof. intros Hne. unfold get. by rewrite lookup_insert_ne. Qed.

Lemma required_checked (options : gmap string data) :
  existsb (fun key => nullish (get options key)) required = false <->
  nullish (get options "description") = false /\
  nullish (get options "start") = false /\
  nullish (get options "end") = false.
Proof.
  unfold required. simpl. rewrite !orb_false_iff. tauto.
Qed.

Lemma fullDay_date (options : gmap string data) S :
  get options "start" = Prim (VDate S) ->
  fullDay env options =
  inr (<["end" := Date_plus_Number env (util_date env S) (1000 * 60 * 60 * 24)]>
         (<["start" := Prim (VDate (util_date env S))]> options)).
Proof.
  intros HS. unfold fullDay. rewrite HS. by rewrite get_insert_eq.
Qed.

Lemma Date_plus_Number_string t :
  Date_plus_Number env t (1000 * 60 * 60 * 24)
  = Prim (VStr (Date_toString env t +:+ "86400000")).
Proof. unfold Date_plus_Number. do 3 f_equal. Qed.

(** C1: with [description], [start] (a date [S]) and [end] present and
    [fullDay] set, the end the code computes is not the date 24 hours after
    the date-only value of [start]: it is the string made of the rendering
    of that date followed by the digits [86400000]; the call then throws a
    [TypeError] on [options.end.toJSON()] and issues no request. *)
Theorem createAppointment_fullDay_end (this : Magister) (options : gmap string data) (S : Z) :
  nullish (get options "description") = false ->
  get options "start" = Prim (VDate S) ->
  nullish (get options "end") = false ->
  truthy (get options "fullDay") = true ->
  get (fst (createAppointment env options)) "end"
  = Prim (VStr (Date_toString env (util_date env S) +:+ "86400000"))
  /\ get (fst (createAppointment env options)) "end"
     <> Prim (VDate (util_date env S + 1000 * 60 * 60 * 24))
  /\ snd (createAppointment env options) this
     = mkResult this [] (Thrown (mkError TypeError "toJSON is not a function")).
Proof.
  intros Hd HS He Hf.
  assert (Hreq : existsb (fun key => nullish (get options key)) required = false).
  { apply required_checked. by rewrite HS. }
  unfold createAppointment. rewrite Hreq, Hf, (fullDay_date _ S HS).
  cbn [fst snd]. rewrite get_insert_eq, Date_plus_Number_string.
  split; [done | split; [done |]].
  unfold payload.
  rewrite (get_insert_ne _ "end" "start"), get_insert_eq by done.
  rewrite get_insert_eq. reflexivity.
Qed.

(** C7: when one of [description], [start], [end] is null or absent, the
    call returns a promise rejected with the error naming
    [description, start, end]; no request is issued, the state of the
    client and the caller's object are left as they were. *)
Theorem createAppointment_missing_required (this : Magister) (options : gmap string data)
    (key : string) :
  key ∈ required ->
  nullish (get options key) = true ->
  snd (createAppointment env options) this = mkResult this [] (Rejected missingRequired)
  /\ fst (createAppointment env options) = options
  /\ kind missingRequired = GenericError
  /\ message missingRequired
     = "Not all required fields for `options` are given, required are: [ description, start, end ]".
Proof.
  intros Hkey Hnull.
  assert (Hreq : existsb (fun key => nullish (get options key)) required = true).
  { apply existsb_exists. exists key. split; [by apply list_elem_of_In | done]. }
  unfold createAppointment. rewrite Hreq. done.
Qed.


End CreateAppointment.

Lemma createAppointment_fullDay_end_witness :
  get (fst (createAppointment Examples.E Examples.fullDayOptions)) "end"
  = Prim (VStr "Sat Mar 10 2018 00:00:00 GMT+0000 (Coordinated Universal Time)86400000")
  /\ snd (createAppointment Examples.E Examples.fullDayOptions)
       (Fixture.loggedIn Fixture.allPrivileges)
     = mkResult (Fixture.loggedIn Fixture.allPrivileges) []
         (Thrown (mkError TypeError "toJSON is not a function")).
Proof.
  pose proof (createAppointment_fullDay_end Examples.E
                (Fixture.loggedIn Fixture.allPrivileges) Examples.fullDayOptions
                1520640245123 eq_refl eq_refl eq_refl eq_refl) as (H1 & _ & H3).
  split; [exact H1 | exact H3].
Defined.

Lemma createAppointment_missing_required_witness :
  snd (createAppointment Examples.E Examples.onlyDescription)
    (Fixture.loggedIn Fixture.allPrivileges)
  = mkResult (Fixture.loggedIn Fixture.allPrivileges) [] (Rejected missingRequired).
Proof.
  apply (createAppointment_missing_required Examples.E
           (Fixture.loggedIn Fixture.allPrivileges) Examples.onlyDescription "start").
  - unfold required. set_solver.
  - reflexivity.
Defined.



(* ================================================================== *)
(** ** Facts about promises and about the privileged fetches *)
(* ================================================================== *)

Section Fetch.

Context (env : Env).

Lemma then_run_rejected {A B} (p : Async A) (f : A -> Async B) this e :
  outcome (p this) = Rejected e ->
  (p >>= f) this = mkResult (state (p this)) (trace (p this)) (Rejected e).
Proof. intros H. unfold Promise.then_. by rewrite H. Qed.

Lemma then_run_resolve {A B} (p : Async A) (g : A -> B) this :
  (p >>= (fun a => Promise.resolve (g a))) this
  = mkResult (state (p this)) (trace (p this))
      match outcome (p this) with
      | Resolved a => Resolved (g a)
      | Rejected e => Rejected e
      | Thrown e => Thrown e
      end.
Proof.
  unfold Promise.then_. destruct (outcome (p this)); simpl; [| done | done].
  by rewrite app_nil_r.
Qed.

Lemma then_not_thrown {A B} (p : Async A) (f : A -> Async B) this :
  (forall e, outcome (p this) <> Thrown e) ->
  forall e, outcome ((p >>= f) this) <> Thrown e.
Proof.
  intros Hp e. unfold Promise.then_.
  destruct (outcome (p this)) as [a | e' | e'] eqn:Ho; simpl;
    [| done | by destruct (Hp e')].
  by destruct (outcome (f a (state (p this)))).
Qed.

Lemma fetch_run {A} (f : data -> A) p thing u this :
  (needs env p thing "read" >>= (fun _ => http_get env u) >>= json >>= mapItems f) this
  = privilegedGet env f p thing u this.
Proof.
  unfold privilegedGet, needs, Promise.then_, http_get, http_request, json, mapItems.
  destruct (Privileges.can p thing "read"); [| done]. simpl.
  destruct (transport env _) as [e | res]; [done |]. simpl.
  destruct (json_body res) as [e | d]; [done |]. simpl.
  destruct (prop d "Items") as [e | items]; [done |]. simpl.
  by destruct (asArray items).
Qed.

Lemma fetched_state {A} (f : data -> A) p thing u this :
  state (privilegedGet env f p thing u this) = this.
Proof. unfold privilegedGet. by destruct (Privileges.can p thing "read"). Qed.

Lemma fetched_not_thrown {A} (f : data -> A) p thing u this e :
  outcome (privilegedGet env f p thing u this) <> Thrown e.
Proof.
  unfold privilegedGet. destruct (Privileges.can p thing "read"); [| done]. simpl.
  destruct (transport env _) as [? | res]; [done |].
  destruct (json_body res) as [? | d]; [done |].
  destruct (prop d "Items") as [? | items]; [done |].
  by destruct (asArray items).
Qed.

Lemma fetched_trace {A} (f : data -> A) p thing u this :
  trace (privilegedGet env f p thing u this) = [] \/
  trace (privilegedGet env f p thing u this) = [mkRequest GET u None (http_cookie this)].
Proof. unfold privilegedGet. destruct (Privileges.can p thing "read"); auto. Qed.

Lemma fetched_unprivileged {A} (f : data -> A) p thing u this :
  Privileges.can p thing "read" = false ->
  privilegedGet env f p thing u this
  = mkResult this [] (Rejected (mkError PermissionError (permissionMessage env "read" thing))).
Proof. intros H. unfold privilegedGet. by rewrite H. Qed.

(** The absence promise of [appointments]. *)
Lemma absencesPromise_run p u fetchAbsences ignoreAbsenceErrors this :
  absencesPromise env p u fetchAbsences ignoreAbsenceErrors this
  = if truthy fetchAbsences then
      if truthy ignoreAbsenceErrors then
        mkResult this (trace (privilegedGet env (AbsenceInfo_new env) p "Absenties" u this))
          match outcome (privilegedGet env (AbsenceInfo_new env) p "Absenties" u this) with
          | Rejected _ => Resolved []
          | o => o
          end
      else privilegedGet env (AbsenceInfo_new env) p "Absenties" u this
    else mkResult this [] (Resolved []).
Proof.
  unfold absencesPromise, absencesFetch.
  destruct (truthy fetchAbsences); [| done].
  destruct (truthy ignoreAbsenceErrors); [| by rewrite fetch_run].
  unfold Promise.catch_. rewrite fetch_run.
  pose proof (fetched_state (AbsenceInfo_new env) p "Absenties" u this) as Hs.
  destruct (privilegedGet env (AbsenceInfo_new env) p "Absenties" u this) as [s t o].
  simpl in *. subst s. destruct o; simpl; try done. by rewrite app_nil_r.
Qed.

Lemma absencesPromise_state p u fa ia this :
  state (absencesPromise env p u fa ia this) = this.
Proof.
  rewrite absencesPromise_run.
  destruct (truthy fa), (truthy ia); try done; apply fetched_state.
Qed.

Lemma absencesPromise_not_thrown p u fa ia this e :
  outcome (absencesPromise env p u fa ia this) <> Thrown e.
Proof.
  rewrite absencesPromise_run.
  destruct (truthy fa), (truthy ia); try done; try apply fetched_not_thrown.
  simpl. pose proof (fetched_not_thrown (AbsenceInfo_new env) p "Absenties" u this e).
  by destruct (outcome (privilegedGet env (AbsenceInfo_new env) p "Absenties" u this)).
Qed.

Lemma absencesPromise_trace p u fa ia this :
  trace (absencesPromise env p u fa ia this) = [] \/
  trace (absencesPromise env p u fa ia this) = [mkRequest GET u None (http_cookie this)].
Proof.
  rewrite absencesPromise_run.
  destruct (truthy fa), (truthy ia); auto; apply fetched_trace.
Qed.

(** With [ignoreAbsenceErrors] the absence promise always resolves, with no
    record when the fetch failed. *)
Lemma absencesPromise_ignoring p u fa ia this :
  truthy ia = true ->
  exists absences,
    outcome (absencesPromise env p u fa ia this) = Resolved absences /\
    (forall e, outcome (absencesFetch env p u this) = Rejected e -> absences = []).
Proof.
  intros Hia. rewrite absencesPromise_run, Hia.
  unfold absencesFetch. rewrite fetch_run.
  pose proof (fetched_not_thrown (AbsenceInfo_new env) p "Absenties" u this) as Hn.
  destruct (truthy fa).
  - simpl. destruct (outcome (privilegedGet env (AbsenceInfo_new env) p "Absenties" u this)) as [l | e | e].
    + exists l. by split.
    + exists []. by split.
    + by destruct (Hn e).
  - exists []. by split.
Qed.

Lemma all2_run {A B} (p : Async A) (q : Async B) this :
  (forall e, outcome (p this) <> Thrown e) ->
  (forall e, outcome (q (state (p this))) <> Thrown e) ->
  Promise.all2 p q this
  = mkResult (state (q (state (p this)))) (trace (p this) ++ trace (q (state (p this))))
      match outcome (p this), outcome (q (state (p this))) with
      | Resolved a, Resolved b => Resolved (a, b)
      | Rejected e, Resolved _ => Rejected e
      | Resolved _, Rejected e => Rejected e
      | Rejected e1, Rejected e2 =>
          if Promise.early (p this) then Rejected e1
          else if Promise.early (q (state (p this))) then Rejected e2 else Rejected e1
      | Thrown e, _ => Thrown e
      | _, Thrown e => Thrown e
      end.
Proof.
  intros Hp Hq. unfold Promise.all2.
  destruct (outcome (p this)) eqn:Hop; [| | by destruct (Hp e)];
    destruct (outcome (q (state (p this)))) eqn:Hoq; try done; by destruct (Hq e).
Qed.

End Fetch.

(* ================================================================== *)
(** ** Strings and sorting *)
(* ================================================================== *)

Lemma append_cancel (p a b : string) : p +:+ a = p +:+ b -> a = b.
Proof.
  induction p as [| c p IH]; simpl; [done |].
  intros H. injection H as H. by apply IH.
Qed.

Lemma trimEnd_cons c s :
  isWhiteSpace c = false -> trimEnd (String c s) = String c (trimEnd s).
Proof.
  intros Hc. simpl. destruct (trimEnd s); [by rewrite Hc | done].
Qed.

Lemma trimEnd_idemp s : trimEnd (trimEnd s) = trimEnd s.
Proof.
  induction s as [| c s IH]; [done |].
  simpl. destruct (trimEnd s) as [| c' t] eqn:Ht.
  - destruct (isWhiteSpace c) eqn:Hc; [done |]. simpl. by rewrite Hc.
  - change (trimEnd (String c (String c' t)) = String c (String c' t)).
    simpl in *. by rewrite IH.
Qed.

Lemma trimStart_head s :
  trimStart s = EmptyString \/
  exists c t, trimStart s = String c t /\ isWhiteSpace c = false.
Proof.
  induction s as [| c s IH]; [by left |].
  simpl. destruct (isWhiteSpace c) eqn:Hc; [done |]. right. by exists c, s.
Qed.

Lemma trim_idemp s : trim (trim s) = trim s.
Proof.
  unfold trim. destruct (trimStart_head s) as [-> | (c & t & -> & Hc)]; [done |].
  rewrite (trimEnd_cons c t Hc). simpl trimStart. rewrite Hc.
  rewrite <- (trimEnd_cons c t Hc). apply trimEnd_idemp.
Qed.

Section SortByFacts.

Context {A : Type} (key : A -> Z).

Lemma insertBy_perm x l : Permutation (insertBy key x l) (x :: l).
Proof.
  induction l as [| y l IH]; simpl; [done |].
  destruct (key x <=? key y); [done |].
  rewrite IH. apply perm_swap.
Qed.

Lemma sortBy_perm l : Permutation (sortBy key l) l.
Proof.
  induction l as [| x l IH]; simpl; [done |].
  rewrite insertBy_perm. by constructor.
Qed.

Lemma insertBy_sorted x l :
  StronglySorted (keyLe key) l -> StronglySorted (keyLe key) (insertBy key x l).
Proof.
  induction 1 as [| y l Hl IH Hy]; simpl.
  - repeat constructor.
  - destruct (key x <=? key y) eqn:Hxy.
    + apply Z.leb_le in Hxy. constructor; [by constructor |].
      constructor; [done |].
      eapply Forall_impl; [exact Hy |]. unfold keyLe. simpl. intros; lia.
    + apply Z.leb_gt in Hxy. constructor; [done |].
      rewrite insertBy_perm. constructor; [unfold keyLe; lia | done].
Qed.

Lemma sortBy_sorted l : StronglySorted (keyLe key) (sortBy key l).
Proof.
  induction l as [| x l IH]; simpl; [constructor | by apply insertBy_sorted].
Qed.

Lemma sortBy_length l : length (sortBy key l) = length l.
Proof. apply Permutation_length, sortBy_perm. Qed.

End SortByFacts.

Lemma dateArguments_first (arguments : list data) (d : Z) :
  Prim (VDate d) ∈ arguments -> is_Some (dateArguments arguments !! 0%nat).
Proof.
  intros Hd. apply lookup_lt_is_Some. unfold dateArguments.
  rewrite sortBy_length.
  assert (Hin : d ∈ omap isDate arguments).
  { apply list_elem_of_omap. by exists (Prim (VDate d)). }
  destruct (omap isDate arguments); [by apply elem_of_nil in Hin | simpl; lia].
Qed.

(* ================================================================== *)
(** ** Properties of the read operations *)
(* ================================================================== *)

Section Reads.

Context (env : Env).

(** C8: a query whose trimmed form has fewer than three characters (a null
    or undefined query counts as empty) resolves to the empty list, for any
    type, with no request and no change of state. *)
Theorem persons_short_query (this : Magister) (query type : option string) :
  (String.length (match query with Some query => trim query | None => "" end) < 3)%nat ->
  persons env query type this = mkResult this [] (Resolved []).
Proof.
  intros Hlen. unfold persons, persons_body.
  apply Nat.ltb_lt in Hlen. by rewrite Hlen.
Qed.

Lemma persons_typed_unprivileged this p query type :
  _privileges this = Some p ->
  Privileges.can p "contactpersonen" "read" = false ->
  (3 <= String.length (trim query))%nat ->
  forall rec,
  persons_body env rec (Some query) (Some type) this
  = mkResult this []
      (Rejected (mkError PermissionError (permissionMessage env "read" "contactpersonen"))).
Proof.
  intros Hp Hcan Hlen rec. unfold persons_body.
  apply Nat.ltb_ge in Hlen. rewrite Hlen, Hp.
  rewrite fetch_run. by apply fetched_unprivileged.
Qed.

Lemma persons_unprivileged this p query type :
  _privileges this = Some p ->
  Privileges.can p "contactpersonen" "read" = false ->
  (3 <= String.length (trim query))%nat ->
  persons env (Some query) type this
  = mkResult this []
      (Rejected (mkError PermissionError (permissionMessage env "read" "contactpersonen"))).
Proof.
  intros Hp Hcan Hlen. destruct type as [type |].
  - by apply persons_typed_unprivileged with (p := p).
  - unfold persons. unfold persons_body at 1.
    pose proof Hlen as Hlen'. apply Nat.ltb_ge in Hlen'. rewrite Hlen'.
    assert (Hsub : forall type,
      persons_body env (fun _ _ => Promise.resolve []) (Some (trim query)) (Some type) this
      = mkResult this []
          (Rejected (mkError PermissionError
                       (permissionMessage env "read" "contactpersonen")))).
    { intros type. apply persons_typed_unprivileged with (p := p); try done.
      by rewrite trim_idemp. }
    unfold Promise.then_, Promise.all2. rewrite !Hsub. simpl. by rewrite ?Hsub.
Qed.

Lemma appointments_unprivileged this p arguments d :
  _privileges this = Some p ->
  Privileges.can p "afspraken" "read" = false ->
  Prim (VDate d) ∈ arguments ->
  exists from to fa ia,
    appointments env arguments this
    = mkResult this (trace (absencesPromise env p (absencesUrl env this from to) fa ia this))
        (Rejected (mkError PermissionError (permissionMessage env "read" "afspraken"))).
Proof.
  intros Hp Hcan Hd.
  destruct (dateArguments_first arguments d Hd) as [from Hfrom].
  unfold appointments. rewrite Hfrom, Hp.
  set (to := default from (dateArguments arguments !! 1%nat)).
  set (fa := optionOr (optionsArgument arguments) "fetchAbsences" true).
  set (ia := optionOr (optionsArgument arguments) "ignoreAbsenceErrors" true).
  exists from, to, fa, ia.
  set (e := mkError PermissionError (permissionMessage env "read" "afspraken")).
  assert (Hap : appointmentsPromise env p (appointmentsUrl env this from to) this
                = mkResult this [] (Rejected e)).
  { unfold appointmentsPromise. rewrite fetch_run. by apply fetched_unprivileged. }
  assert (Hall : Promise.all2
                   (appointmentsPromise env p (appointmentsUrl env this from to))
                   (absencesPromise env p (absencesUrl env this from to) fa ia) this
                 = mkResult this
                     (trace (absencesPromise env p (absencesUrl env this from to) fa ia this))
                     (Rejected e)).
  { rewrite all2_run.
    - rewrite Hap. simpl. rewrite absencesPromise_state. f_equal.
      pose proof (absencesPromise_not_thrown env p (absencesUrl env this from to)
                    fa ia this) as Hn.
      destruct (outcome (absencesPromise env p _ fa ia this)) as [| | e0]; try done.
      by destruct (Hn e0).
    - by rewrite Hap.
    - intros e'. rewrite Hap. apply absencesPromise_not_thrown. }
  rewrite then_run_rejected with (e := e);
    rewrite then_run_rejected with (e := e); by rewrite Hall.
Qed.

(** C2: as amended, with a cached privilege set that lacks [read] on the
    resource of the operation, [courses], [messageFolders], [persons] (on a
    query of at least three characters once trimmed) and [appointments]
    (given a date) reject with a [PermissionError], and no request for that
    resource is issued: the first three issue no request at all, and
    [appointments] issues no request for [afspraken]. *)
Theorem read_needs_privilege (this : Magister) (p : Privileges.t) :
  _privileges this = Some p ->
  (Privileges.can p "aanmeldingen" "read" = false ->
     exists e, courses env this = mkResult this [] (Rejected e)
               /\ kind e = PermissionError)
  /\ (Privileges.can p "berichten" "read" = false ->
        exists e, messageFolders env this = mkResult this [] (Rejected e)
                  /\ kind e = PermissionError)
  /\ (Privileges.can p "contactpersonen" "read" = false ->
        forall (query : string) (type : option string),
          (3 <= String.length (trim query))%nat ->
          exists e, persons env (Some query) type this = mkResult this [] (Rejected e)
                    /\ kind e = PermissionError)
  /\ (Privileges.can p "afspraken" "read" = false ->
        forall (arguments : list data) (d : Z),
          Prim (VDate d) ∈ arguments ->
          exists e, outcome (appointments env arguments this) = Rejected e
                    /\ kind e = PermissionError
                    /\ forall req, req ∈ trace (appointments env arguments this) ->
                                   ~ requestFor this "afspraken" req).
Proof.
  intros Hp. repeat split.
  - intros Hcan.
    exists (mkError PermissionError (permissionMessage env "read" "aanmeldingen")).
    split; [| done].
    unfold courses. rewrite Hp. rewrite then_run_resolve, fetch_run.
    by rewrite fetched_unprivileged.
  - intros Hcan.
    exists (mkError PermissionError (permissionMessage env "read" "berichten")).
    split; [| done].
    unfold messageFolders. rewrite Hp, fetch_run. by apply fetched_unprivileged.
  - intros Hcan query type Hlen.
    exists (mkError PermissionError (permissionMessage env "read" "contactpersonen")).
    split; [| done].
    by apply persons_unprivileged with (p := p).
  - intros Hcan arguments d Hd.
    destruct (appointments_unprivileged this p arguments d Hp Hcan Hd)
      as (from & to & fa & ia & ->).
    eexists. split; [reflexivity | split; [reflexivity |]].
    simpl. intros req Hreq [rest Hurl].
    destruct (absencesPromise_trace env p (absencesUrl env this from to) fa ia this)
      as [Ht | Ht]; rewrite Ht in Hreq.
    + by apply elem_of_nil in Hreq.
    + apply list_elem_of_singleton in Hreq. subst req. simpl in Hurl.
      unfold absencesUrl in Hurl. apply append_cancel in Hurl. discriminate.
Qed.

End Reads.

(* ================================================================== *)
(** ** [appointments]: order of the result and linked absences *)
(* ================================================================== *)

Section Appointments.

Context (env : Env).

Lemma then_resolved_inv {A B} (p : Async A) (f : A -> Async B) this b :
  outcome ((p >>= f) this) = Resolved b ->
  exists a, outcome (p this) = Resolved a /\ outcome (f a (state (p this))) = Resolved b.
Proof.
  unfold Promise.then_. destruct (outcome (p this)) as [a | e | e]; simpl; try done.
  intros H. exists a. split; [done |].
  by destruct (outcome (f a (state (p this)))).
Qed.

Lemma start_resolved_inv {A} (ps : list (Async A)) this :
  omap Promise.exception (Promise.start ps this) = [] ->
  omap Promise.rejection (Promise.start ps this) = [] ->
  Forall2 (fun p a => exists s, outcome (p s) = Resolved a)
          ps (omap Promise.value (Promise.start ps this)).
Proof.
  revert this. induction ps as [| p ps IH]; intros this Hex Hrej; simpl in *.
  - constructor.
  - destruct (outcome (p this)) as [a | e | e] eqn:Ho; simpl in *.
    + unfold Promise.exception, Promise.rejection, Promise.value in *.
      rewrite Ho in *. simpl in *. constructor; [by exists this |].
      by apply IH.
    + unfold Promise.rejection in Hrej at 1. by rewrite Ho in Hrej.
    + unfold Promise.exception in Hex at 1. by rewrite Ho in Hex.
Qed.

Lemma all_resolved_inv {A} (ps : list (Async A)) this l :
  outcome (Promise.all ps this) = Resolved l ->
  Forall2 (fun p a => exists s, outcome (p s) = Resolved a) ps l.
Proof.
  unfold Promise.all. simpl.
  destruct (omap Promise.exception (Promise.start ps this)) as [| e es] eqn:Hex;
    simpl; [| done].
  destruct (head (omap Promise.rejection (List.filter Promise.early _))); [done |].
  destruct (omap Promise.rejection (Promise.start ps this)) as [| e es] eqn:Hrej;
    simpl; [| done].
  intros [= <-]. by apply start_resolved_inv.
Qed.

Lemma fillTeachers_resolved a s b :
  outcome (fillTeachers env a s) = Resolved b -> sameButTeachers a b.
Proof.
  unfold fillTeachers. rewrite then_run_resolve. cbn [outcome].
  match goal with |- context [outcome ?r] => destruct (outcome r) as [ts | |] end;
    try done.
  intros [= <-]. by exists ts.
Qed.

Lemma fill_resolved (appointments : list Appointment.t) s l :
  outcome (Promise.all (fillTeachers env <$> appointments) s) = Resolved l ->
  Forall2 sameButTeachers appointments l.
Proof.
  intros H. apply all_resolved_inv in H. apply Forall2_fmap_l in H.
  eapply Forall2_impl; [exact H |]. simpl.
  intros a b [s' Hs']. by apply fillTeachers_resolved in Hs'.
Qed.

Lemma sameButTeachers_start (l l' : list Appointment.t) :
  Forall2 sameButTeachers l l' -> Appointment.start <$> l' = Appointment.start <$> l.
Proof.
  induction 1 as [| a b l l' [ts ->] _ IH]; [done |].
  rewrite !fmap_cons, IH. by destruct a.
Qed.

(** What a resolved call went through. *)
Lemma appointments_resolved_inv (arguments : list data) this l :
  outcome (appointments env arguments this) = Resolved l ->
  exists from p fetched,
    dateArguments arguments !! 0%nat = Some from /\
    _privileges this = Some p /\
    outcome (appointmentsPromise env p
               (appointmentsUrl env this from
                  (default from (dateArguments arguments !! 1%nat))) this)
    = Resolved fetched /\
    let sorted :=
      sortBy Appointment.start (linkAbsences (fetchedAbsences env arguments this) fetched) in
    if truthy (optionOr (optionsArgument arguments) "fillPersons" false)
    then Forall2 sameButTeachers sorted l
    else l = sorted.
Proof.
  unfold appointments, fetchedAbsences.
  destruct (dateArguments arguments !! 0%nat) as [from |]; [| done].
  destruct (_privileges this) as [p |]; [| done].
  set (to := default from (dateArguments arguments !! 1%nat)).
  set (fa := optionOr (optionsArgument arguments) "fetchAbsences" true).
  set (ia := optionOr (optionsArgument arguments) "ignoreAbsenceErrors" true).
  intros H. exists from, p.
  apply then_resolved_inv in H as (sorted & H & Hfill).
  apply then_resolved_inv in H as ([fetched absences] & Hall & Hsort).
  simpl in Hsort. injection Hsort as <-.
  assert (Hst : state (appointmentsPromise env p (appointmentsUrl env this from to) this)
                = this).
  { unfold appointmentsPromise. rewrite fetch_run. apply fetched_state. }
  rewrite all2_run in Hall; cycle 1.
  { intros e. unfold appointmentsPromise. rewrite fetch_run. apply fetched_not_thrown. }
  { intros e. apply absencesPromise_not_thrown. }
  simpl in Hall. rewrite Hst in Hall.
  destruct (outcome (appointmentsPromise env p (appointmentsUrl env this from to) this))
    as [fetched' | e | e] eqn:Hap;
    destruct (outcome (absencesPromise env p (absencesUrl env this from to) fa ia this))
      as [absences' | e' | e'] eqn:Hab;
    try done.
  - injection Hall as -> ->. exists fetched. repeat split; try done.
    unfold Promise.value. rewrite Hab. simpl.
    destruct (truthy (optionOr (optionsArgument arguments) "fillPersons" false)); simpl in Hfill.
    + by apply fill_resolved in Hfill.
    + by injection Hfill as <-.
  - exfalso. revert Hall. repeat case_match; done.
Qed.

Lemma linkAbsences_spec absences appointments a :
  a ∈ linkAbsences absences appointments ->
  Appointment.absenceInfo a = find (matches a) absences.
Proof.
  unfold linkAbsences. intros (a0 & -> & _)%list_elem_of_fmap. by destruct a0.
Qed.

Lemma appointments_resolved_spec (arguments : list data) this l :
  outcome (appointments env arguments this) = Resolved l ->
  StronglySorted Z.le (Appointment.start <$> l) /\
  forall a, a ∈ l ->
    Appointment.absenceInfo a = find (matches a) (fetchedAbsences env arguments this).
Proof.
  intros H.
  destruct (appointments_resolved_inv arguments this l H)
    as (from & p & fetched & _ & _ & _ & Hl).
  set (absences := fetchedAbsences env arguments this) in *.
  set (sorted := sortBy Appointment.start (linkAbsences absences fetched)) in *.
  simpl in Hl.
  assert (Hsorted : StronglySorted Z.le (Appointment.start <$> sorted)).
  { apply StronglySorted_fmap with (R1 := keyLe Appointment.start); [done |].
    apply sortBy_sorted. }
  assert (Hlinked : forall a, a ∈ sorted ->
            Appointment.absenceInfo a = find (matches a) absences).
  { intros a Ha. apply (linkAbsences_spec absences fetched).
    unfold sorted in Ha. by rewrite sortBy_perm in Ha. }
  destruct (truthy (optionOr (optionsArgument arguments) "fillPersons" false)).
  - split; [by rewrite (sameButTeachers_start _ _ Hl) |].
    intros b Hb.
    destruct (proj1 (list_elem_of_lookup l b) Hb) as [n Hn].
    destruct (Forall2_lookup_r _ _ _ _ _ Hl Hn) as (a & Ha & ts & ->).
    apply list_elem_of_lookup_2 in Ha. specialize (Hlinked a Ha).
    destruct a. exact Hlinked.
  - by subst l.
Qed.

(** C3: the list a call resolves with is in non-decreasing order of start
    time, and each of its appointments carries the first fetched absence
    record whose appointment has its identifier: when some fetched record
    matches, a fetched record that matches is attached (the only one, when
    just one matches); when none matches, none is attached. *)
Theorem appointments_sorted_linked (arguments : list data) (this : Magister)
    (l : list Appointment.t) :
  outcome (appointments env arguments this) = Resolved l ->
  StronglySorted Z.le (Appointment.start <$> l)
  /\ forall a, a ∈ l ->
       Appointment.absenceInfo a = find (matches a) (fetchedAbsences env arguments this)
       /\ (forall i, i ∈ fetchedAbsences env arguments this ->
             Appointment.id (AbsenceInfo.appointment i) = Appointment.id a ->
             exists i', Appointment.absenceInfo a = Some i'
                        /\ i' ∈ fetchedAbsences env arguments this
                        /\ Appointment.id (AbsenceInfo.appointment i') = Appointment.id a)
       /\ ((forall i, i ∈ fetchedAbsences env arguments this ->
              Appointment.id (AbsenceInfo.appointment i) <> Appointment.id a) ->
           Appointment.absenceInfo a = None).
Proof.
  intros H. destruct (appointments_resolved_spec arguments this l H) as [Hs Hfind].
  set (absences := fetchedAbsences env arguments this) in *.
  split; [done |].
  intros a Ha. specialize (Hfind a Ha). split; [done | split].
  - intros i Hi Hid.
    destruct (find (matches a) absences) as [i' |] eqn:Hf.
    + apply find_some in Hf as [Hin Hm]. exists i'. split; [done | split].
      * by apply list_elem_of_In.
      * unfold matches in Hm. by apply Z.eqb_eq in Hm.
    + apply list_elem_of_In in Hi.
      pose proof (find_none _ _ Hf i Hi) as Hm. unfold matches in Hm.
      apply Z.eqb_neq in Hm. contradiction.
  - intros Hnone. rewrite Hfind.
    destruct (find (matches a) absences) as [i' |] eqn:Hf; [| done].
    apply find_some in Hf as [Hin Hm]. apply list_elem_of_In in Hin.
    unfold matches in Hm. apply Z.eqb_eq in Hm. by destruct (Hnone i' Hin).
Qed.

Lemma then_outcome_resolved {A B} (p : Async A) (f : A -> Async B) this a :
  outcome (p this) = Resolved a ->
  outcome ((p >>= f) this)
  = match outcome (f a (state (p this))) with Thrown e => Rejected e | o => o end.
Proof. intros H. unfold Promise.then_. by rewrite H. Qed.

(** C6: with [ignoreAbsenceErrors] left to its default (or set), when the
    appointments themselves are fetched and the absence fetch fails with any
    error, the call resolves instead of rejecting: with [fillPersons] off it
    resolves with the fetched appointments in order of start, and in every
    case no appointment of a resolved list has an absence attached. *)
Theorem appointments_ignores_absence_errors (arguments : list data) (this : Magister)
    (from : Z) (p : Privileges.t) (fetched : list Appointment.t) (e : JsError) :
  dateArguments arguments !! 0%nat = Some from ->
  _privileges this = Some p ->
  truthy (optionOr (optionsArgument arguments) "ignoreAbsenceErrors" true) = true ->
  outcome (appointmentsPromise env p
             (appointmentsUrl env this from
                (default from (dateArguments arguments !! 1%nat))) this)
  = Resolved fetched ->
  outcome (absencesFetch env p
             (absencesUrl env this from
                (default from (dateArguments arguments !! 1%nat))) this)
  = Rejected e ->
  (truthy (optionOr (optionsArgument arguments) "fillPersons" false) = false ->
     outcome (appointments env arguments this)
     = Resolved (sortBy Appointment.start
                   (Appointment.set_absenceInfo None <$> fetched)))
  /\ (forall l, outcome (appointments env arguments this) = Resolved l ->
        forall a, a ∈ l -> Appointment.absenceInfo a = None).
Proof.
  intros Hfrom Hp Hia Hap Hfail.
  set (to := default from (dateArguments arguments !! 1%nat)) in *.
  set (fa := optionOr (optionsArgument arguments) "fetchAbsences" true).
  set (ia := optionOr (optionsArgument arguments) "ignoreAbsenceErrors" true) in *.
  assert (Hab : outcome (absencesPromise env p (absencesUrl env this from to) fa ia this)
                = Resolved []).
  { destruct (absencesPromise_ignoring env p (absencesUrl env this from to) fa ia this Hia)
      as (absences & Ho & Hempty).
    rewrite Ho. f_equal. by apply (Hempty e). }
  assert (Hnone : fetchedAbsences env arguments this = []).
  { unfold fetchedAbsences. rewrite Hfrom, Hp. fold to fa ia.
    unfold Promise.value. by rewrite Hab. }
  split.
  - intros Hfp. unfold appointments. rewrite Hfrom, Hp. fold to fa ia.
    assert (Hst : state (appointmentsPromise env p (appointmentsUrl env this from to) this)
                  = this).
    { unfold appointmentsPromise. rewrite fetch_run. apply fetched_state. }
    assert (Hall : outcome (Promise.all2
                              (appointmentsPromise env p (appointmentsUrl env this from to))
                              (absencesPromise env p (absencesUrl env this from to) fa ia)
                              this)
                   = Resolved (fetched, [])).
    { rewrite all2_run.
      - simpl. by rewrite Hst, Hap, Hab.
      - intros e'. by rewrite Hap.
      - intros e'. apply absencesPromise_not_thrown. }
    rewrite Hfp. simpl negb. cbv iota.
    erewrite then_outcome_resolved; [reflexivity |].
    erewrite then_outcome_resolved; [| exact Hall]. reflexivity.
  - intros l Hl a Ha.
    destruct (appointments_resolved_spec arguments this l Hl) as [_ Hfind].
    rewrite (Hfind a Ha), Hnone. reflexivity.
Qed.

Lemma insertBy_comm (x y : Z) (l : list Z) :
  insertBy (fun t => t) x (insertBy (fun t => t) y l)
  = insertBy (fun t => t) y (insertBy (fun t => t) x l).
Proof.
  induction l as [| z l IH]; simpl.
  - destruct (x <=? y) eqn:Hxy, (y <=? x) eqn:Hyx; try done.
    + apply Z.leb_le in Hxy, Hyx. by replace y with x by lia.
    + apply Z.leb_gt in Hxy, Hyx. lia.
  - destruct (y <=? z) eqn:Hyz, (x <=? z) eqn:Hxz; simpl;
      destruct (x <=? y) eqn:Hxy, (y <=? x) eqn:Hyx; simpl;
      rewrite ?Hyz, ?Hxz; try done;
      rewrite ?Z.leb_le, ?Z.leb_gt in *; try lia.
    + by replace y with x by lia.
    + by rewrite IH.
    + by rewrite IH.
    + by rewrite IH.
Qed.

Lemma dateArguments_swap (d1 d2 : Z) (rest : list data) :
  dateArguments (Prim (VDate d1) :: Prim (VDate d2) :: rest)
  = dateArguments (Prim (VDate d2) :: Prim (VDate d1) :: rest).
Proof. unfold dateArguments. simpl. apply insertBy_comm. Qed.

(** C9: swapping the two date arguments changes nothing: the state, the
    requests and the outcome of the call are the same, whatever the further
    arguments (an options object, or none). *)
Theorem appointments_date_order (this : Magister) (d1 d2 : Z) (rest : list data) :
  appointments env (Prim (VDate d1) :: Prim (VDate d2) :: rest) this
  = appointments env (Prim (VDate d2) :: Prim (VDate d1) :: rest) this.
Proof.
  unfold appointments. rewrite (dateArguments_swap d1 d2 rest). reflexivity.
Qed.

End Appointments.

(* ================================================================== *)
(** ** Properties of [login] *)
(* ================================================================== *)

Section Login.

Context (env : Env).

Lemma rethrow_known (err : JsError) :
  message err ∈ invalidCredentials -> rethrow err = mkError AuthError (message err).
Proof.
  intros Hin. unfold rethrow.
  replace (existsb (String.eqb (message err)) invalidCredentials) with true; [done |].
  symmetry. apply existsb_exists. exists (message err).
  split; [by apply list_elem_of_In | apply String.eqb_refl].
Qed.

Lemma rethrow_other (err : JsError) :
  message err ∉ invalidCredentials -> rethrow err = err.
Proof.
  intros Hnin. unfold rethrow.
  destruct (existsb (String.eqb (message err)) invalidCredentials) eqn:Hex; [| done].
  apply existsb_exists in Hex as (m & Hin & Heq).
  apply String.eqb_eq in Heq. subst m. by apply list_elem_of_In in Hin.
Qed.

(** C4: when [login] negotiates a session and the negotiation fails with
    [err], [login] rejects with what the [catch] handler re-throws: an
    [AuthError] carrying the message when the message is one of the two
    invalid-credentials strings, and [err] itself, unchanged, for any other
    message. *)
Theorem login_failure_classified (this : Magister) (forceNew : bool) (err : JsError) :
  suppliedSession forceNew (_options this) = None ->
  outcome (negotiate env this this) = Rejected err ->
  outcome (login env forceNew this) = Rejected (rethrow err)
  /\ (message err ∈ invalidCredentials ->
        outcome (login env forceNew this) = Rejected (mkError AuthError (message err)))
  /\ (message err ∉ invalidCredentials ->
        outcome (login env forceNew this) = Rejected err).
Proof.
  intros Hs Hneg.
  assert (H : outcome (login env forceNew this) = Rejected (rethrow err)).
  { unfold login. rewrite Hs.
    assert (Hc : outcome (Promise.catch_ (negotiate env this)
                            (fun err => Promise.throw (rethrow err)) this)
                 = Rejected (rethrow err)).
    { unfold Promise.catch_. by rewrite Hneg. }
    rewrite then_run_rejected with (e := rethrow err);
      rewrite ?then_run_rejected with (e := rethrow err); done. }
  split; [done | split]; intros Hm; rewrite H.
  - by rewrite rethrow_known.
  - by rewrite rethrow_other.
Qed.

Lemma account_run baseUrl sessionId res this :
  trace (account env baseUrl sessionId res this) = []
  /\ (forall id', outcome (account env baseUrl sessionId res this) = Resolved id' ->
        id' = sessionId)
  /\ (decodable res -> outcome (account env baseUrl sessionId res this) = Resolved sessionId).
Proof.
  unfold account, decodable.
  destruct (prop res "Persoon") as [e | Persoon] eqn:HP.
  { repeat split; try done. intros (? & ? & ? & ? & _). simplify_eq. }
  destruct (prop Persoon "Id") as [e | id] eqn:Hi.
  { repeat split; try done. intros (? & ? & ? & ? & ? & _). simplify_eq. congruence. }
  destruct (firstGroupPrivileges res) as [e | privileges] eqn:Hg.
  { repeat split; try done. intros (? & ? & ? & _ & _ & ?). congruence. }
  repeat split; try done. by intros id' [= <-].
Qed.

(** The run of [login(false)] on a client constructed with session [id]. *)
Lemma login_supplied_run (this : Magister) (id : string) :
  sessionId (_options this) = Some id ->
  id <> "" ->
  login env false this
  = (http_get env (replaceScheme (school_url this) +:+ "/api/account")
     >>= json
     >>= account env (replaceScheme (school_url this)) id)
      (state (setSessionId id this)).
Proof.
  intros Hid Hne.
  assert (Hs : suppliedSession false (_options this) = Some id).
  { unfold suppliedSession. rewrite Hid. simpl.
    by destruct (String.eqb_spec id ""). }
  unfold login. rewrite Hs.
  set (k := fun sessionId : string => _).
  unfold Promise.then_ at 1 2. simpl. subst k. cbv beta.
  match goal with |- _ = ?r => set (run := r) end.
  assert (Hn : forall e, outcome run <> Thrown e).
  { do 2 apply then_not_thrown. intros e.
    unfold http_get, http_request. simpl. by destruct (transport env _). }
  destruct run as [s t [a | e | e]]; simpl; try done. by destruct (Hn e).
Qed.

(** C5: with a session id supplied at construction, [login(false)] issues
    exactly one request, the GET of the account (no DELETE of the current
    session, no POST creating one); it can only resolve with the supplied
    id, and does so when the account request is answered with a response it
    can decode. *)
Theorem login_supplied_session (this : Magister) (id : string) :
  sessionId (_options this) = Some id ->
  id <> "" ->
  trace (login env false this) = [accountRequest this id]
  /\ (forall req, req ∈ trace (login env false this) ->
        method req <> DELETE /\ method req <> POST)
  /\ (forall id', outcome (login env false this) = Resolved id' -> id' = id)
  /\ (forall res body,
        transport env (accountRequest this id) = inr res ->
        json_body res = inr body ->
        decodable body ->
        outcome (login env false this) = Resolved id).
Proof.
  intros Hid Hne. rewrite (login_supplied_run this id Hid Hne).
  set (this' := state (setSessionId id this)).
  set (baseUrl := replaceScheme (school_url this)).
  set (run := (http_get env (baseUrl +:+ "/api/account") >>= json
               >>= account env baseUrl id) this').
  assert (Hrun : exists s o,
            run = mkResult s [accountRequest this id] o
            /\ (forall id', o = Resolved id' -> id' = id)
            /\ (forall res body,
                  transport env (accountRequest this id) = inr res ->
                  json_body res = inr body -> decodable body -> o = Resolved id)).
  { assert (Hget : http_get env (baseUrl +:+ "/api/account") this'
                   = mkResult this' [accountRequest this id]
                       match transport env (accountRequest this id) with
                       | inl e => Rejected e
                       | inr r => Resolved r
                       end) by done.
    subst run. unfold Promise.then_. rewrite Hget. cbn [outcome state trace].
    destruct (transport env (accountRequest this id)) as [e | res].
    { do 2 eexists. split; [reflexivity |]. split; intros; simplify_eq. }
    cbn [outcome state trace]. unfold json.
    destruct (json_body res) as [e | body] eqn:Hj.
    { do 2 eexists. split; [reflexivity |]. split; intros; simplify_eq. congruence. }
    cbn [Promise.try_ Promise.resolve outcome state trace].
    destruct (account_run baseUrl id body this') as (Ht & Hres & Hok).
    rewrite Ht. cbn [app].
    do 2 eexists. split; [reflexivity | split].
    - intros id'.
      destruct (outcome (account env baseUrl id body this')) eqn:Ho; try done.
      intros [= <-]. by apply Hres.
    - intros res' body' [= <-] Hj' Hdec.
      assert (body' = body) as -> by congruence. by rewrite (Hok Hdec). }
  destruct Hrun as (s & o & -> & Hres & Hok). cbn [outcome state trace].
  split; [done | split; [| split]]; [| done | done].
  by intros req ->%list_elem_of_singleton.
Qed.

End Login.

(* ================================================================== *)
(** ** The theorems on the fixture portal *)
(* ================================================================== *)

(** C2: the claim as stated fails: without any privilege, [persons("ab")] does not
    reject with a [PermissionError]; it resolves with the empty list. *)
Lemma unprivileged_persons_resolves :
  _privileges Runs.unprivileged = Some ∅
  /\ Privileges.can ∅ "contactpersonen" "read" = false
  /\ outcome (persons Examples.E (Some "ab") None Runs.unprivileged) = Resolved []
  /\ ~ exists e, outcome (persons Examples.E (Some "ab") None Runs.unprivileged) = Rejected e
                 /\ kind e = PermissionError.
Proof.
  repeat split. intros (e & He & _). vm_compute in He. discriminate.
Qed.

Lemma read_needs_privilege_witness :
  (exists e, courses Examples.E Runs.absencesOnly
             = mkResult Runs.absencesOnly [] (Rejected e) /\ kind e = PermissionError)
  /\ (exists e, persons Examples.E (Some " ab  cd ") None Runs.absencesOnly
                = mkResult Runs.absencesOnly [] (Rejected e) /\ kind e = PermissionError)
  /\ (exists e, outcome (appointments Examples.E Runs.twoDates Runs.absencesOnly) = Rejected e
                /\ kind e = PermissionError
                /\ forall req, req ∈ trace (appointments Examples.E Runs.twoDates
                                              Runs.absencesOnly) ->
                               ~ requestFor Runs.absencesOnly "afspraken" req).
Proof.
  pose proof (read_needs_privilege Examples.E Runs.absencesOnly
                (Privileges.grant "Absenties" "read" ∅) eq_refl)
    as (Hcourses & _ & Hpersons & Happointments).
  split; [exact (Hcourses ltac:(vm_compute; reflexivity)) | split].
  - apply (Hpersons ltac:(vm_compute; reflexivity) " ab  cd " None). vm_compute. lia.
  - apply (Happointments ltac:(vm_compute; reflexivity) Runs.twoDates 1520845200001).
    unfold Runs.twoDates. set_solver.
Defined.

Lemma persons_short_query_witness :
  persons Examples.E (Some " ab ") None Runs.everything
  = mkResult Runs.everything [] (Resolved []).
Proof.
  apply (persons_short_query Examples.E Runs.everything (Some " ab ") None).
  vm_compute. lia.
Defined.

Lemma appointments_sorted_linked_witness :
  exists l,
    outcome (appointments Examples.E Runs.twoDates Runs.everything) = Resolved l
    /\ Appointment.id <$> l = [2; 1; 3]
    /\ StronglySorted Z.le (Appointment.start <$> l).
Proof.
  eexists. split; [vm_compute; reflexivity |]. split; [reflexivity |].
  eapply (appointments_sorted_linked Examples.E Runs.twoDates Runs.everything).
  vm_compute. reflexivity.
Defined.

Lemma appointments_ignores_absence_errors_witness :
  outcome (appointments (Fixture.env (Fixture.portal false)) Runs.twoDates Runs.everything)
  = Resolved (sortBy Appointment.start
                (Appointment.set_absenceInfo None <$> Runs.fetchedAppointments)).
Proof.
  pose proof (appointments_ignores_absence_errors (Fixture.env (Fixture.portal false))
                Runs.twoDates Runs.everything 1520640245123 Fixture.allPrivileges
                Runs.fetchedAppointments Fixture.down
                ltac:(vm_compute; reflexivity) eq_refl
                ltac:(vm_compute; reflexivity) ltac:(vm_compute; reflexivity)
                ltac:(vm_compute; reflexivity)) as [H _].
  exact (H ltac:(vm_compute; reflexivity)).
Defined.

Lemma login_failure_classified_witness :
  outcome (login Examples.E false Runs.wrongPassword)
  = Rejected (mkError AuthError "Je gebruikersnaam en/of wachtwoord is niet correct.").
Proof.
  apply (login_failure_classified Examples.E Runs.wrongPassword false
           (mkError GenericError "Je gebruikersnaam en/of wachtwoord is niet correct.")).
  - reflexivity.
  - vm_compute. reflexivity.
  - unfold invalidCredentials. simpl. set_solver.
Defined.

Lemma login_supplied_session_witness :
  trace (login Examples.E false Runs.withSession)
  = [mkRequest GET "https://school.nl/api/account" None
       (Some "SESSION_ID=abc; M6UserName=leerling")]
  /\ outcome (login Examples.E false Runs.withSession) = Resolved "abc".
Proof.
  pose proof (login_supplied_session Examples.E Runs.withSession "abc" eq_refl
                ltac:(discriminate)) as (Htrace & _ & _ & Hok).
  split; [exact Htrace |].
  eapply Hok; [vm_compute; reflexivity | reflexivity |].
  unfold decodable. do 3 eexists. repeat split; vm_compute; reflexivity.
Defined.


(* ================================================================== *)
(** ** Further properties: what the operations leave alone *)
(* ================================================================== *)

Section Quiet.

Context (env : Env).

Lemma quiet_resolve {A} m (a : A) : quiet m (Promise.resolve a).
Proof. intros s. split; [done |]. by intros req Hreq%elem_of_nil. Qed.

Lemma quiet_reject {A} m e : quiet m (@Promise.reject A e).
Proof. intros s. split; [done |]. by intros req Hreq%elem_of_nil. Qed.

Lemma quiet_throw {A} m e : quiet m (@Promise.throw A e).
Proof. intros s. split; [done |]. by intros req Hreq%elem_of_nil. Qed.

Lemma quiet_try {A} m (x : JsError + A) : quiet m (Promise.try_ x).
Proof. destruct x; [apply quiet_reject | apply quiet_resolve]. Qed.

Lemma quiet_needs m p thing action : quiet m (needs env p thing action).
Proof.
  unfold needs. destruct (Privileges.can p thing action);
    [apply quiet_resolve | apply quiet_reject].
Qed.

Lemma quiet_http m u b : quiet m (http_request env m u b).
Proof.
  intros s. split; [done |]. simpl. by intros req ->%list_elem_of_singleton.
Qed.

Lemma quiet_then {A B} m (p : Async A) (f : A -> Async B) :
  quiet m p -> (forall a, quiet m (f a)) -> quiet m (p >>= f).
Proof.
  intros Hp Hf s. destruct (Hp s) as [Hs Ht]. unfold Promise.then_.
  destruct (outcome (p s)) as [a | e | e]; simpl; [| done | done].
  rewrite Hs. destruct (Hf a s) as [Hs' Ht']. split; [done |].
  intros req [Hr | Hr]%elem_of_app; auto.
Qed.

Lemma quiet_catch {A} m (p : Async A) (h : JsError -> Async A) :
  quiet m p -> (forall e, quiet m (h e)) -> quiet m (Promise.catch_ p h).
Proof.
  intros Hp Hh s. destruct (Hp s) as [Hs Ht]. unfold Promise.catch_.
  destruct (outcome (p s)) as [a | e | e]; simpl; [done | | done].
  rewrite Hs. destruct (Hh e s) as [Hs' Ht']. split; [done |].
  intros req [Hr | Hr]%elem_of_app; auto.
Qed.

Lemma quiet_all2 {A B} m (p : Async A) (q : Async B) :
  quiet m p -> quiet m q -> quiet m (Promise.all2 p q).
Proof.
  intros Hp Hq s. destruct (Hp s) as [Hs Ht]. unfold Promise.all2.
  destruct (outcome (p s)) as [a | e | e]; simpl; [| | done];
    rewrite Hs; destruct (Hq s) as [Hs' Ht']; (split; [done |]);
    intros req [Hr | Hr]%elem_of_app; auto.
Qed.

Lemma quiet_start {A} m (ps : list (Async A)) s :
  Forall (quiet m) ps ->
  Forall (fun r => state r = s /\
                   forall req, req ∈ trace r -> method req = m /\ cookie req = http_cookie s)
         (Promise.start ps s).
Proof.
  induction 1 as [| p ps Hp _ IH]; simpl; [constructor |].
  destruct (Hp s) as [Hs Ht].
  destruct (outcome (p s)); constructor; try done; try constructor;
    by rewrite Hs.
Qed.

Lemma quiet_all {A} m (ps : list (Async A)) :
  Forall (quiet m) ps -> quiet m (Promise.all ps).
Proof.
  intros Hps s. pose proof (quiet_start m ps s Hps) as Hrs.
  unfold Promise.all. simpl. split.
  - destruct (last (Promise.start ps s)) as [r |] eqn:Hl; simpl; [| done].
    apply last_Some_elem_of in Hl.
    by destruct (proj1 (Forall_forall _ _) Hrs r Hl).
  - intros req Hreq. apply list_elem_of_In, in_concat in Hreq as (t & Ht & Hin).
    apply list_elem_of_In, list_elem_of_fmap in Ht as (r & -> & Hr).
    destruct (proj1 (Forall_forall _ _) Hrs r Hr) as [_ H].
    by apply H, list_elem_of_In.
Qed.

Lemma quiet_get {A} (f : data -> A) p thing u :
  quiet GET (needs env p thing "read" >>= (fun _ => http_get env u) >>= json
             >>= mapItems f).
Proof.
  repeat apply quiet_then; intros; try apply quiet_try.
  - apply quiet_needs.
  - apply quiet_http.
Qed.

Lemma quiet_absencesPromise p u fetchAbsences ignoreAbsenceErrors :
  quiet GET (absencesPromise env p u fetchAbsences ignoreAbsenceErrors).
Proof.
  unfold absencesPromise, absencesFetch.
  destruct (truthy fetchAbsences); [| apply quiet_resolve].
  destruct (truthy ignoreAbsenceErrors); [| apply quiet_get].
  apply quiet_catch; [apply quiet_get | intros; apply quiet_resolve].
Qed.

Lemma quiet_persons_body rec query type :
  (forall q t, quiet GET (rec q t)) -> quiet GET (persons_body env rec query type).
Proof.
  intros Hrec s. unfold persons_body.
  destruct (_ <? _)%nat; [apply quiet_resolve |].
  destruct type as [type |].
  - destruct (_privileges s); [apply quiet_get | apply quiet_throw].
  - apply quiet_then; [by apply quiet_all2 |]. intros [? ?]. apply quiet_resolve.
Qed.

Lemma quiet_fillTeachers a :
  (forall t type, quiet GET (getFilled env t type)) -> quiet GET (fillTeachers env a).
Proof.
  intros Hfill. apply quiet_then; [| intros; apply quiet_resolve].
  apply quiet_all, Forall_fmap, Forall_forall. intros t _. apply Hfill.
Qed.

(** X1: the read operations never write to the client and only ever issue
    GET requests carrying the cookie the client holds: [courses],
    [messageFolders] and [persons] always, [appointments] when [fillPersons]
    is off or [getFilled] itself behaves so. *)
Theorem reads_are_quiet :
  quiet GET (courses env)
  /\ quiet GET (messageFolders env)
  /\ (forall query type, quiet GET (persons env query type))
  /\ (forall arguments,
        truthy (optionOr (optionsArgument arguments) "fillPersons" false) = false
        \/ (forall t type, quiet GET (getFilled env t type)) ->
        quiet GET (appointments env arguments)).
Proof.
  split; [| split; [| split]].
  - intros s. unfold courses. destruct (_privileges s); [| apply quiet_throw].
    apply quiet_then; [apply quiet_get | intros; apply quiet_resolve].
  - intros s. unfold messageFolders.
    destruct (_privileges s); [apply quiet_get | apply quiet_throw].
  - intros query type. unfold persons.
    apply quiet_persons_body. intros q t.
    apply quiet_persons_body. intros; apply quiet_resolve.
  - intros arguments Hfill s. unfold appointments.
    destruct (dateArguments arguments !! 0%nat); [| apply quiet_throw].
    destruct (_privileges s) as [p |]; [| apply quiet_throw].
    apply quiet_then; [apply quiet_then |].
    + apply quiet_all2; [apply quiet_get | apply quiet_absencesPromise].
    + intros [? ?]. apply quiet_resolve.
    + intros l. destruct Hfill as [-> | Hfill]; [apply quiet_resolve |].
      destruct (negb _); [apply quiet_resolve |].
      apply quiet_all, Forall_fmap, Forall_forall. intros a _.
      by apply quiet_fillTeachers.
Qed.

End Quiet.

Lemma reads_are_quiet_witness :
  state (appointments Examples.E Runs.twoDates Runs.everything) = Runs.everything
  /\ forall req, req ∈ trace (appointments Examples.E Runs.twoDates Runs.everything) ->
       method req = GET /\ cookie req = Some "SESSION_ID=new-1; M6UserName=leerling".
Proof.
  destruct (reads_are_quiet Examples.E) as (_ & _ & _ & H).
  apply (H Runs.twoDates). left. reflexivity.
Defined.

(* ================================================================== *)
(** ** Further properties of [createAppointment] *)
(* ================================================================== *)

Section Posting.

Context (env : Env).

(** Once the payload is built, the call is the privilege check, the POST
    and the construction of the result. *)
Lemma createAppointment_run (options P : gmap string data) this :
  existsb (fun key => nullish (get options key)) required = false ->
  truthy (get options "fullDay") = false ->
  payload options = inr P ->
  snd (createAppointment env options) this = posting env this P.
Proof.
  intros Hreq Hf HP. unfold createAppointment. rewrite Hreq, Hf. cbn [snd].
  rewrite HP. unfold posting.
  destruct (_privileges this) as [p |]; [| done].
  unfold needs, Promise.then_, http_post, http_request, json.
  destruct (Privileges.can p "afspraken" "create"); [| done]. simpl.
  destruct (transport env _) as [e | res]; [done |]. simpl.
  destruct (json_body res) as [e | body]; [done |]. simpl.
  by destruct (prop body "Url").
Qed.

(** The [fullDay] branch leaves an [end] that has no [toJSON]. *)
Lemma fullDay_payload (options options' : gmap string data) :
  fullDay env options = inr options' -> exists e, payload options' = inl e.
Proof.
  unfold fullDay.
  destruct (get options "start") as [[| | | | | S] | |] eqn:HS; try done.
  rewrite get_insert_eq. intros [= <-]. unfold payload.
  rewrite (get_insert_ne _ "end" "start"), !get_insert_eq by done. simpl.
  by eexists.
Qed.

Lemma posting_state this P : state (posting env this P) = this.
Proof.
  unfold posting. destruct (_privileges this) as [p |]; [| done].
  by destruct (Privileges.can p "afspraken" "create").
Qed.

(** X2: whatever the options, [createAppointment] leaves the client as it
    is and issues at most one request: nothing, or, for an appointment that
    is not a full day, the POST of the payload to the [afspraken] of the
    person, with the cookie the client holds. *)
Theorem createAppointment_request (options : gmap string data) (this : Magister) :
  state (snd (createAppointment env options) this) = this
  /\ (trace (snd (createAppointment env options) this) = []
      \/ exists P,
           truthy (get options "fullDay") = false
           /\ payload options = inr P
           /\ trace (snd (createAppointment env options) this)
              = [mkRequest POST (tmpl (_personUrl this) +:+ "/afspraken") (Some P)
                   (http_cookie this)]).
Proof.
  destruct (existsb (fun key => nullish (get options key)) required) eqn:Hreq.
  { unfold createAppointment. rewrite Hreq. by split; [| left]. }
  destruct (truthy (get options "fullDay")) eqn:Hf.
  { unfold createAppointment. rewrite Hreq, Hf.
    destruct (fullDay env options) as [e | options'] eqn:Hfd; [by split; [| left] |].
    destruct (fullDay_payload _ _ Hfd) as [e ->]. by split; [| left]. }
  destruct (payload options) as [e | P] eqn:HP.
  { unfold createAppointment. rewrite Hreq, Hf. cbn [snd]. rewrite HP.
    by split; [| left]. }
  rewrite (createAppointment_run options P this Hreq Hf HP).
  split; [apply posting_state |].
  unfold posting. destruct (_privileges this) as [p |]; [| by left].
  destruct (Privileges.can p "afspraken" "create"); [| by left].
  right. by exists P.
Qed.

(** X3: creating an appointment takes the [create] privilege on
    [afspraken]: without it no request is issued and the call never
    resolves, whatever the options; a call that got as far as the payload
    rejects with a [PermissionError]. *)
Theorem createAppointment_needs_create (this : Magister) (p : Privileges.t)
    (options : gmap string data) :
  _privileges this = Some p ->
  Privileges.can p "afspraken" "create" = false ->
  trace (snd (createAppointment env options) this) = []
  /\ (forall a, outcome (snd (createAppointment env options) this) <> Resolved a)
  /\ (forall P,
        existsb (fun key => nullish (get options key)) required = false ->
        truthy (get options "fullDay") = false ->
        payload options = inr P ->
        exists e, outcome (snd (createAppointment env options) this) = Rejected e
                  /\ kind e = PermissionError).
Proof.
  intros Hp Hcan.
  assert (Hpost : forall P, posting env this P
            = mkResult this []
                (Rejected (mkError PermissionError
                             (permissionMessage env "create" "afspraken")))).
  { intros P. unfold posting. by rewrite Hp, Hcan. }
  destruct (existsb (fun key => nullish (get options key)) required) eqn:Hreq.
  { unfold createAppointment. rewrite Hreq. by repeat split. }
  destruct (truthy (get options "fullDay")) eqn:Hf.
  { unfold createAppointment. rewrite Hreq, Hf.
    destruct (fullDay env options) as [e | options'] eqn:Hfd; [by repeat split |].
    destruct (fullDay_payload _ _ Hfd) as [e ->]. by repeat split. }
  destruct (payload options) as [e | P] eqn:HP.
  { unfold createAppointment. rewrite Hreq, Hf. cbn [snd]. rewrite HP.
    by repeat split. }
  rewrite (createAppointment_run options P this Hreq Hf HP), Hpost.
  repeat split; try done. intros P' _ _ _. by eexists.
Qed.

(** Every operation but [login] reads [this._privileges]. *)
Lemma persons_body_not_logged_in rec this query type :
  _privileges this = None ->
  (3 <= String.length (trim query))%nat ->
  persons_body env rec (Some query) (Some type) this
  = mkResult this [] (Thrown notLoggedIn).
Proof.
  intros Hp Hlen. unfold persons_body.
  apply Nat.ltb_ge in Hlen. by rewrite Hlen, Hp.
Qed.

(** X4: before a login nothing can be fetched: [courses],
    [messageFolders], [persons] (on a query of three characters or more),
    [appointments] (given a date) throw a [TypeError] from the call itself,
    [createAppointment] never resolves, and none of them issues a request. *)
Theorem nothing_before_login (this : Magister) :
  _privileges this = None ->
  courses env this = mkResult this [] (Thrown notLoggedIn)
  /\ messageFolders env this = mkResult this [] (Thrown notLoggedIn)
  /\ (forall (query : string) (type : option string),
        (3 <= String.length (trim query))%nat ->
        persons env (Some query) type this = mkResult this [] (Thrown notLoggedIn))
  /\ (forall (arguments : list data) (d : Z),
        Prim (VDate d) ∈ arguments ->
        appointments env arguments this = mkResult this [] (Thrown notLoggedIn))
  /\ (forall options,
        trace (snd (createAppointment env options) this) = []
        /\ forall a, outcome (snd (createAppointment env options) this) <> Resolved a).
Proof.
  intros Hp. split; [| split; [| split; [| split]]].
  - unfold courses. by rewrite Hp.
  - unfold messageFolders. by rewrite Hp.
  - intros query [type |] Hlen.
    + by apply persons_body_not_logged_in.
    + unfold persons. unfold persons_body at 1.
      pose proof Hlen as Hlen'. apply Nat.ltb_ge in Hlen'. rewrite Hlen'.
      unfold Promise.then_, Promise.all2.
      rewrite persons_body_not_logged_in; [done | done |].
      by rewrite trim_idemp.
  - intros arguments d Hd.
    destruct (dateArguments_first arguments d Hd) as [from Hfrom].
    unfold appointments. by rewrite Hfrom, Hp.
  - intros options.
    assert (Hpost : forall P, posting env this P = mkResult this [] (Thrown notLoggedIn)).
    { intros P. unfold posting. by rewrite Hp. }
    destruct (existsb (fun key => nullish (get options key)) required) eqn:Hreq.
    { unfold createAppointment. rewrite Hreq. by split. }
    destruct (truthy (get options "fullDay")) eqn:Hf.
    { unfold createAppointment. rewrite Hreq, Hf.
      destruct (fullDay env options) as [e | options'] eqn:Hfd; [by split |].
      destruct (fullDay_payload _ _ Hfd) as [e ->]. by split. }
    destruct (payload options) as [e | P] eqn:HP.
    { unfold createAppointment. rewrite Hreq, Hf. cbn [snd]. rewrite HP. by split. }
    rewrite (createAppointment_run options P this Hreq Hf HP), Hpost. by split.
Qed.

End Posting.







(* ================================================================== *)
(** ** Further properties of [courses], [messageFolders] and [persons] *)
(* ================================================================== *)

Section SortByStable.

Context {A : Type} (key : A -> Z).

Lemma insertBy_keeps (k : Z) (x : A) (l : list A) :
  List.filter (fun a => key a =? k) (insertBy key x l)
  = List.filter (fun a => key a =? k) (x :: l).
Proof.
  induction l as [| y l IH]; [done |].
  cbn [insertBy]. destruct (key x <=? key y) eqn:Hxy; [done |].
  apply Z.leb_gt in Hxy. cbn [List.filter] in *. rewrite IH.
  destruct (key x =? k) eqn:Hx, (key y =? k) eqn:Hy; try done.
  apply Z.eqb_eq in Hx, Hy. lia.
Qed.

Lemma sortBy_stable (k : Z) (l : list A) :
  List.filter (fun a => key a =? k) (sortBy key l)
  = List.filter (fun a => key a =? k) l.
Proof.
  induction l as [| x l IH]; [done |].
  cbn [sortBy foldr]. fold (sortBy key l). rewrite insertBy_keeps.
  cbn [List.filter]. by rewrite IH.
Qed.

End SortByStable.

Section Lists.

Context (env : Env).

Lemma privilegedGet_resolved_inv {A} (f : data -> A) p thing u this l :
  outcome (privilegedGet env f p thing u this) = Resolved l ->
  Privileges.can p thing "read" = true /\
  exists res body items,
    transport env (mkRequest GET u None (http_cookie this)) = inr res /\
    json_body res = inr body /\
    prop body "Items" = inr (Arr items) /\
    l = f <$> items.
Proof.
  unfold privilegedGet.
  destruct (Privileges.can p thing "read"); [| done]. simpl.
  destruct (transport env _) as [e | res]; [done |].
  destruct (json_body res) as [e | body] eqn:Hb; [done |].
  destruct (prop body "Items") as [e | items] eqn:Hi; [done |].
  destruct items as [[] | items |]; try done. simpl.
  intros [= <-]. split; [done |]. by exists res, body, items.
Qed.

(** X6: the courses a call resolves with are the items of the response to
    the one GET of [aanmeldingen], in non-decreasing order of start; courses
    with the same start keep the order of the response. *)
Theorem courses_sorted (this : Magister) (l : list Course.t) :
  outcome (courses env this) = Resolved l ->
  StronglySorted Z.le (Course.start <$> l)
  /\ exists res body items,
       transport env (mkRequest GET (tmpl (_personUrl this) +:+ "/aanmeldingen") None
                        (http_cookie this)) = inr res
       /\ json_body res = inr body
       /\ prop body "Items" = inr (Arr items)
       /\ Permutation l (Course_new env <$> items)
       /\ forall start,
            List.filter (fun c => Course.start c =? start) l
            = List.filter (fun c => Course.start c =? start) (Course_new env <$> items).
Proof.
  unfold courses. destruct (_privileges this) as [p |]; [| done].
  rewrite then_run_resolve, fetch_run. cbn [outcome].
  destruct (outcome (privilegedGet env _ p _ _ this)) as [l0 | |] eqn:Hget; try done.
  intros [= <-].
  apply privilegedGet_resolved_inv in Hget as (_ & res & body & items & ? & ? & ? & ->).
  split.
  - apply StronglySorted_fmap with (R1 := keyLe Course.start); [done |].
    apply sortBy_sorted.
  - exists res, body, items. repeat split; try done.
    + apply sortBy_perm.
    + intros start. apply sortBy_stable.
Qed.

(** X7: the message folders a call resolves with are the items of the
    response to the one GET of [berichten/mappen], in the order of the
    response. *)
Theorem messageFolders_in_order (this : Magister) (l : list MessageFolder.t) :
  outcome (messageFolders env this) = Resolved l ->
  exists res body items,
    transport env (mkRequest GET (tmpl (_personUrl this) +:+ "/berichten/mappen") None
                     (http_cookie this)) = inr res
    /\ json_body res = inr body
    /\ prop body "Items" = inr (Arr items)
    /\ l = MessageFolder_new env <$> items.
Proof.
  unfold messageFolders. destruct (_privileges this) as [p |]; [| done].
  rewrite fetch_run. intros (_ & H)%privilegedGet_resolved_inv. exact H.
Qed.

Lemma replaceSpaces_no_space (s : string) : hasChar " " (replaceSpaces s) = false.
Proof.
  induction s as [| c s IH]; [done |].
  cbn [replaceSpaces]. destruct (Ascii.eqb c " ") eqn:Hc.
  - destruct s as [| c' s']; [done |].
    destruct (Ascii.eqb c' " "); [done |].
    cbn [hasChar]. by rewrite IH.
  - cbn [hasChar]. rewrite IH, orb_false_r. by rewrite Ascii.eqb_sym.
Qed.

(** A query with a type, on a client that is logged in. *)
Lemma persons_body_typed_run rec this p (query type : string) :
  _privileges this = Some p ->
  (3 <= String.length (trim query))%nat ->
  persons_body env rec (Some query) (Some type) this
  = privilegedGet env (fun x => Person.set_filled true (Person_new env x)) p
      "contactpersonen" (personsUrl env this type (trim query)) this.
Proof.
  intros Hp Hlen. unfold persons_body.
  apply Nat.ltb_ge in Hlen. rewrite Hlen, Hp. by rewrite fetch_run.
Qed.

(** X8: a query with a type issues at most the one GET of
    [contactpersonen], whose [q] is the trimmed query with each run of
    spaces turned into one plus, so that no space is left in it.  Its
    [contactPersoonType] is one of the four codes of the portal ([Overig]
    for any type but teacher, pupil and project) unless the type is a name
    every object inherits ([constructor], [toString], [__proto__], ...):
    the lookup then finds the built-in of that name, and it is the text of
    that built-in that reaches the url. *)
Theorem persons_request (this : Magister) (p : Privileges.t) (query type : string) :
  _privileges this = Some p ->
  (3 <= String.length (trim query))%nat ->
  (trace (persons env (Some query) (Some type) this) = []
   \/ trace (persons env (Some query) (Some type) this)
      = [mkRequest GET
           (tmpl (_personUrl this) +:+ "/contactpersonen?contactPersoonType="
            +:+ personType env type +:+ "&q=" +:+ replaceSpaces (trim query))
           None (http_cookie this)])
  /\ (type ∉ Object_prototype ->
      personType env type ∈ ["Personeel"; "Leerling"; "Project"; "Overig"])
  /\ (type ∉ ["teacher"; "pupil"; "project"] -> type ∉ Object_prototype ->
      personType env type = "Overig")
  /\ (type ∈ Object_prototype ->
      personType env type
      = if String.eqb type "__proto__" then "[object Object]"
        else nativeFunction env (if String.eqb type "constructor" then "Object" else type))
  /\ hasChar " " (replaceSpaces (trim query)) = false.
Proof.
  intros Hp Hlen. unfold persons.
  rewrite (persons_body_typed_run _ this p query type Hp Hlen).
  split; [apply fetched_trace | split; [| split; [| split]]].
  - intros Hnot. unfold personType.
    destruct (String.eqb type "teacher"); [by repeat constructor |].
    destruct (String.eqb type "pupil"); [by repeat constructor |].
    destruct (String.eqb type "project"); [by repeat constructor |].
    destruct (String.eqb_spec type "__proto__") as [-> | _].
    { exfalso. apply Hnot. by repeat constructor. }
    destruct (String.eqb_spec type "constructor") as [-> | _].
    { exfalso. apply Hnot. by repeat constructor. }
    rewrite bool_decide_eq_false_2 by done. by repeat constructor.
  - intros Hnot Hproto. unfold personType.
    destruct (String.eqb_spec type "teacher") as [-> | _].
    { exfalso. apply Hnot. by repeat constructor. }
    destruct (String.eqb_spec type "pupil") as [-> | _].
    { exfalso. apply Hnot. by repeat constructor. }
    destruct (String.eqb_spec type "project") as [-> | _].
    { exfalso. apply Hnot. by repeat constructor. }
    destruct (String.eqb_spec type "__proto__") as [-> | _].
    { exfalso. apply Hproto. by repeat constructor. }
    destruct (String.eqb_spec type "constructor") as [-> | _].
    { exfalso. apply Hproto. by repeat constructor. }
    by rewrite bool_decide_eq_false_2.
  - intros Hin. unfold personType.
    destruct (String.eqb_spec type "teacher") as [-> | _].
    { by apply (bool_decide_pack _) in Hin. }
    destruct (String.eqb_spec type "pupil") as [-> | _].
    { by apply (bool_decide_pack _) in Hin. }
    destruct (String.eqb_spec type "project") as [-> | _].
    { by apply (bool_decide_pack _) in Hin. }
    destruct (String.eqb type "__proto__"); [done |].
    destruct (String.eqb type "constructor"); [done |].
    by rewrite bool_decide_eq_true_2.
  - apply replaceSpaces_no_space.
Qed.

(** X9: a query without a type is the teacher query followed by the pupil
    query: their requests in that order, and, when both resolve, the
    teachers followed by the pupils; it resolves only when both do. *)
Theorem persons_teachers_then_pupils (this : Magister) (p : Privileges.t) (query : string) :
  _privileges this = Some p ->
  (3 <= String.length (trim query))%nat ->
  trace (persons env (Some query) None this)
  = (trace (persons env (Some query) (Some "teacher") this)
     ++ trace (persons env (Some query) (Some "pupil") this))%list
  /\ (forall teachers pupils,
        outcome (persons env (Some query) (Some "teacher") this) = Resolved teachers ->
        outcome (persons env (Some query) (Some "pupil") this) = Resolved pupils ->
        outcome (persons env (Some query) None this) = Resolved (teachers ++ pupils)%list)
  /\ (forall l,
        outcome (persons env (Some query) None this) = Resolved l ->
        exists teachers pupils,
          outcome (persons env (Some query) (Some "teacher") this) = Resolved teachers
          /\ outcome (persons env (Some query) (Some "pupil") this) = Resolved pupils
          /\ l = (teachers ++ pupils)%list).
Proof.
  intros Hp Hlen.
  assert (Hsub : forall type,
    persons_body env (fun _ _ => Promise.resolve []) (Some (trim query)) (Some type) this
    = persons env (Some query) (Some type) this).
  { intros type. unfold persons.
    rewrite !(persons_body_typed_run _ this p) by (by rewrite ?trim_idemp).
    by rewrite trim_idemp. }
  assert (Hrun : forall type,
    state (persons env (Some query) (Some type) this) = this
    /\ forall e, outcome (persons env (Some query) (Some type) this) <> Thrown e).
  { intros type. unfold persons.
    rewrite (persons_body_typed_run _ this p query type Hp Hlen).
    split; [apply fetched_state | intros e; apply fetched_not_thrown]. }
  destruct (Hrun "teacher") as [HsT HnT]. destruct (Hrun "pupil") as [HsP HnP].
  assert (Hall : persons env (Some query) None this
    = (Promise.all2 (fun _ => persons env (Some query) (Some "teacher") this)
                    (fun _ => persons env (Some query) (Some "pupil") this)
       >>= (fun '(teachers, pupils) => Promise.resolve (teachers ++ pupils)%list)) this).
  { unfold persons at 1. unfold persons_body at 1.
    pose proof Hlen as Hlen'. apply Nat.ltb_ge in Hlen'. rewrite Hlen'.
    unfold Promise.then_, Promise.all2. rewrite !Hsub, HsT, !Hsub. done. }
  rewrite Hall. clear Hall Hsub Hrun.
  unfold Promise.then_, Promise.all2. rewrite HsT, HsP.
  set (T := persons env (Some query) (Some "teacher") this) in *.
  set (P := persons env (Some query) (Some "pupil") this) in *.
  destruct (outcome T) as [a | e | e] eqn:HT; [| | by destruct (HnT e)];
    destruct (outcome P) as [b | e' | e'] eqn:HP;
    try (by destruct (HnP e')); cbn; rewrite ?HT, ?HP, ?app_nil_r.
  - split; [done | split].
    + by intros teachers pupils [= <-] [= <-].
    + intros l [= <-]. by exists a, b.
  - by repeat split.
  - by repeat split.
  - repeat split; try done. all: by destruct (Promise.early T), (Promise.early P).
Qed.

(** X10: every person a query resolves with is marked as filled. *)
Theorem persons_filled (this : Magister) (query type : option string)
    (l : list Person.t) :
  outcome (persons env query type this) = Resolved l ->
  forall x, x ∈ l -> Person._filled x = true.
Proof.
  assert (Htyped : forall rec q t l',
    outcome (persons_body env rec q (Some t) this) = Resolved l' ->
    forall x, x ∈ l' -> Person._filled x = true).
  { intros rec q t l'. unfold persons_body.
    destruct (_ <? _)%nat; [by intros [= <-] x Hx%elem_of_nil |].
    destruct (_privileges this) as [p |]; [| done].
    rewrite fetch_run.
    intros (_ & _ & _ & items & _ & _ & _ & ->)%privilegedGet_resolved_inv x.
    by intros (raw & -> & _)%list_elem_of_fmap. }
  destruct type as [type |]; [apply Htyped |].
  unfold persons. unfold persons_body at 1.
  destruct (_ <? _)%nat; [by intros [= <-] x Hx%elem_of_nil |].
  intros ([teachers pupils] & Hall & Hcat)%then_resolved_inv.
  simpl in Hcat. injection Hcat as <-.
  unfold Promise.all2 in Hall.
  set (T := persons_body env _ _ (Some "teacher") this) in *.
  destruct (outcome T) as [a | e | e] eqn:HT; try done.
  - cbn [outcome] in Hall.
    destruct (outcome (persons_body env _ _ (Some "pupil") (state T)))
      as [b | e | e] eqn:HP; try done.
    injection Hall as -> ->. intros x [Hx | Hx]%elem_of_app.
    + by apply (Htyped _ _ _ _ HT).
    + revert HP. generalize (state T). intros s HP.
      revert x Hx. clear -HP env.
      unfold persons_body in HP.
      destruct (_ <? _)%nat; [by injection HP as <-; intros x Hx%elem_of_nil |].
      destruct (_privileges s) as [p |]; [| done].
      rewrite fetch_run in HP.
      apply privilegedGet_resolved_inv in HP as (_ & _ & _ & items & _ & _ & _ & ->).
      by intros x (raw & -> & _)%list_elem_of_fmap.
  - cbn [outcome] in Hall. revert Hall. repeat case_match; done.
Qed.

End Lists.

(* ================================================================== *)
(** ** Further properties of [login] *)
(* ================================================================== *)

Section Session.

Context (env : Env).

Lemma negotiate_run (this : Magister) : negotiate env this this = negotiated env this.
Proof.
  unfold negotiate, negotiated, Promise.then_, http_delete, http_post, http_request.
  cbn [outcome state trace]. fold (deleteRequest this).
  destruct (transport env (deleteRequest this)) as [e | r]; [done |].
  cbn [outcome state trace].
  destruct (sessionIdOf r) as [e | id]; [done |].
  cbn [Promise.try_ Promise.resolve setSessionId outcome state trace app].
  fold (cookieOf this id). change (http_cookie (set_http_cookie ?c _)) with (Some c).
  change (_options (set_http_cookie ?c ?s)) with (_options s).
  fold (postRequest this id).
  destruct (transport env (postRequest this id)) as [e | r']; [done |].
  cbn [outcome state trace app]. by destruct (sessionIdOf r').
Qed.

(** The steps of [login] that follow the session id. *)
Lemma adopt_run (this : Magister) (id : string) (s : Magister) :
  (setSessionId id
   >>= (fun sessionId =>
          http_get env (replaceScheme (school_url this) +:+ "/api/account")
          >>= json
          >>= account env (replaceScheme (school_url this)) sessionId)) s
  = adopted env this id s.
Proof.
  unfold adopted, Promise.then_ at 1. cbn [setSessionId outcome state trace app].
  fold (cookieOf s id).
  set (s' := set_http_cookie (cookieOf s id) s).
  unfold Promise.then_, http_get, http_request, json. cbn [outcome state trace].
  destruct (transport env _) as [e | res]; [done |]. cbn [outcome state trace].
  destruct (json_body res) as [e | body]; [done |].
  cbn [Promise.try_ Promise.resolve outcome state trace app].
  destruct (account_run env (replaceScheme (school_url this)) id body s') as (Ht & _).
  rewrite Ht. by destruct (outcome (account env _ id body s')).
Qed.

Lemma then_assoc {A B C} (p : Async A) (f : A -> Async B) (g : B -> Async C) this :
  (p >>= f >>= g) this = (p >>= (fun a => f a >>= g)) this.
Proof.
  unfold Promise.then_.
  destruct (outcome (p this)) as [a | e | e]; cbn [outcome state trace]; [| done | done].
  destruct (outcome (f a (state (p this)))) as [b | e | e];
    cbn [outcome state trace]; [| done | done].
  rewrite app_assoc. by destruct (outcome (g b _)).
Qed.

Lemma adopted_not_thrown this id s e : outcome (adopted env this id s) <> Thrown e.
Proof.
  unfold adopted. destruct (transport env _) as [? | res]; [done |].
  destruct (json_body res) as [? | body]; [done |]. cbn [outcome].
  by destruct (outcome (account env _ id body _)).
Qed.

Lemma suppliedSession_None forceNew options :
  suppliedSession forceNew options = None <->
  forceNew = true \/ given (sessionId options) = false.
Proof.
  unfold suppliedSession, given. destruct (sessionId options) as [id |]; [| by intuition].
  destruct forceNew, (truthy (Prim (VStr id))); simpl; intuition congruence.
Qed.

(** A login that negotiates. *)
Lemma login_negotiated_run (this : Magister) (forceNew : bool) :
  forceNew = true \/ given (sessionId (_options this)) = false ->
  login env forceNew this
  = match outcome (negotiated env this) with
    | Resolved id =>
        let r := adopted env this id (state (negotiated env this)) in
        mkResult (state r) (trace (negotiated env this) ++ trace r) (outcome r)
    | Rejected e =>
        mkResult (state (negotiated env this)) (trace (negotiated env this))
          (Rejected (rethrow e))
    | Thrown e =>
        mkResult (state (negotiated env this)) (trace (negotiated env this)) (Thrown e)
    end.
Proof.
  intros Hs%suppliedSession_None. unfold login. rewrite Hs, then_assoc.
  unfold Promise.then_ at 1. unfold Promise.catch_. rewrite negotiate_run.
  destruct (negotiated env this) as [s t [id | e | e]]; cbn [outcome state trace].
  - rewrite adopt_run.
    pose proof (adopted_not_thrown this id s) as Ha.
    destruct (outcome (adopted env this id s)) as [| | e]; try done. by destruct (Ha e).
  - cbn. by rewrite app_nil_r.
  - done.
Qed.

(** A login that adopts the session given to the client. *)
Lemma login_adopted_run (this : Magister) (id : string) :
  sessionId (_options this) = Some id -> id <> "" ->
  login env false this = adopted env this id this.
Proof.
  intros Hid Hne.
  assert (Hs : suppliedSession false (_options this) = Some id).
  { unfold suppliedSession. rewrite Hid. simpl. by destruct (String.eqb_spec id ""). }
  unfold login. rewrite Hs, then_assoc. unfold Promise.then_ at 1.
  cbn [Promise.resolve outcome state trace]. rewrite adopt_run. cbn [app].
  pose proof (adopted_not_thrown this id this) as Ha.
  destruct (adopted env this id this) as [s t [| | e]]; try done. by destruct (Ha e).
Qed.

Lemma negotiated_options (this : Magister) :
  _options (state (negotiated env this)) = _options this
  /\ school_url (state (negotiated env this)) = school_url this.
Proof.
  unfold negotiated. destruct (transport env _) as [? | r]; [done |].
  by destruct (sessionIdOf r).
Qed.

(** The state a decoded account leaves. *)
Lemma adopted_resolved (this : Magister) (id id' : string) (s : Magister) :
  outcome (adopted env this id s) = Resolved id' ->
  id' = id /\
  exists res body Persoon pid privileges,
    transport env
      (mkRequest GET (replaceScheme (school_url this) +:+ "/api/account") None
         (Some (cookieOf s id))) = inr res
    /\ json_body res = inr body
    /\ prop body "Persoon" = inr Persoon
    /\ prop Persoon "Id" = inr pid
    /\ firstGroupPrivileges body = inr privileges
    /\ state (adopted env this id s)
       = mkMagister (_options s) (school_url s) (Some (cookieOf s id))
           (Some (ProfileInfo_new env Persoon))
           (Some (Privileges_new env privileges))
           (Some (replaceScheme (school_url this) +:+ "/api/personen/"
                  +:+ toString env pid))
           (Some (replaceScheme (school_url this) +:+ "/api/leerlingen/"
                  +:+ toString env pid)).
Proof.
  unfold adopted. cbn [http_cookie set_http_cookie].
  destruct (transport env _) as [e | res] eqn:Hres; [done |].
  destruct (json_body res) as [e | body] eqn:Hbody; [done |].
  cbn [outcome state]. unfold account.
  destruct (prop body "Persoon") as [e | Persoon] eqn:HP; [done |].
  destruct (prop Persoon "Id") as [e | pid] eqn:Hi; [done |].
  destruct (firstGroupPrivileges body) as [e | privileges] eqn:Hg; [done |].
  cbn. intros [= <-]. split; [done |].
  by exists res, body, Persoon, pid, privileges.
Qed.

Lemma login_resolved_state (this : Magister) (forceNew : bool) (id : string) :
  outcome (login env forceNew this) = Resolved id ->
  exists res body Persoon pid privileges,
    transport env (accountRequest this id) = inr res
    /\ json_body res = inr body
    /\ prop body "Persoon" = inr Persoon
    /\ prop Persoon "Id" = inr pid
    /\ firstGroupPrivileges body = inr privileges
    /\ state (login env forceNew this)
       = mkMagister (_options this) (school_url this) (Some (cookieOf this id))
           (Some (ProfileInfo_new env Persoon))
           (Some (Privileges_new env privileges))
           (Some (replaceScheme (school_url this) +:+ "/api/personen/"
                  +:+ toString env pid))
           (Some (replaceScheme (school_url this) +:+ "/api/leerlingen/"
                  +:+ toString env pid)).
Proof.
  destruct (suppliedSession forceNew (_options this)) as [id0 |] eqn:Hs.
  - assert (Hid : sessionId (_options this) = Some id0 /\ id0 <> "" /\ forceNew = false).
    { unfold suppliedSession in Hs.
      destruct (sessionId (_options this)) as [i |]; [| done].
      destruct forceNew; [done |]. simpl in Hs.
      destruct (String.eqb_spec i ""); [done |]. by injection Hs as ->. }
    destruct Hid as (Hid & Hne & ->).
    rewrite (login_adopted_run this id0 Hid Hne).
    intros (-> & H)%adopted_resolved. exact H.
  - apply suppliedSession_None in Hs. rewrite (login_negotiated_run this forceNew Hs).
    destruct (negotiated_options this) as [Ho Hu].
    destruct (outcome (negotiated env this)) as [id0 | e | e]; try done.
    cbn [outcome state].
    intros (-> & res & body & Persoon & pid & privileges & H1 & H2 & H3 & H4 & H5 & H6)
      %adopted_resolved.
    unfold cookieOf in *. rewrite Ho in *. rewrite Hu in *.
    by exists res, body, Persoon, pid, privileges.
Qed.

(** X11: a login that resolves leaves the client ready: the cookie names
    the session it resolved with, the person and pupil urls are built from
    the id of the account that was fetched with that cookie, rendered as a
    template literal renders it (the decimal digits of a safe integer), the
    privileges and the profile are set, and the options and the school are
    as before. *)
Theorem login_ready (this : Magister) (forceNew : bool) (id : string) :
  outcome (login env forceNew this) = Resolved id ->
  exists res body Persoon pid privileges,
    transport env (accountRequest this id) = inr res
    /\ json_body res = inr body
    /\ prop body "Persoon" = inr Persoon
    /\ prop Persoon "Id" = inr pid
    /\ firstGroupPrivileges body = inr privileges
    /\ state (login env forceNew this)
       = mkMagister (_options this) (school_url this) (Some (cookieOf this id))
           (Some (ProfileInfo_new env Persoon))
           (Some (Privileges_new env privileges))
           (Some (replaceScheme (school_url this) +:+ "/api/personen/"
                  +:+ toString env pid))
           (Some (replaceScheme (school_url this) +:+ "/api/leerlingen/"
                  +:+ toString env pid))
    /\ (forall n, pid = Prim (VNum n) -> Z.abs n <= MAX_SAFE_INTEGER ->
          _personUrl (state (login env forceNew this))
          = Some (replaceScheme (school_url this) +:+ "/api/personen/" +:+ pretty n)
          /\ _pupilUrl (state (login env forceNew this))
             = Some (replaceScheme (school_url this) +:+ "/api/leerlingen/" +:+ pretty n)).
Proof.
  intros Hid.
  destruct (login_resolved_state this forceNew id Hid)
    as (res & body & Persoon & pid & privileges & H1 & H2 & H3 & H4 & H5 & Hstate).
  exists res, body, Persoon, pid, privileges.
  do 6 (split; [done |]).
  intros n -> Hn. rewrite Hstate. cbn [_personUrl _pupilUrl toString toStr].
  unfold Number_toString. apply Z.leb_le in Hn. by rewrite Hn.
Qed.

(** X12: a login that negotiates (because it is forced to, or because the
    client was given no session id) sends DELETE, POST and GET in that
    order and stops at the first failure: it always starts by deleting the
    current session, with the cookie the client held, and the POST of the
    credentials carries the cookie of the session id found in the answer to
    the DELETE. *)
Theorem login_negotiation_order (this : Magister) (forceNew : bool) :
  forceNew = true \/ given (sessionId (_options this)) = false ->
  (exists rest, trace (login env forceNew this) = deleteRequest this :: rest)
  /\ method <$> trace (login env forceNew this)
     ∈ [[DELETE]; [DELETE; POST]; [DELETE; POST; GET]]
  /\ (forall r id,
        transport env (deleteRequest this) = inr r ->
        sessionIdOf r = inr id ->
        trace (login env forceNew this) !! 1%nat = Some (postRequest this id)).
Proof.
  intros Hs. rewrite (login_negotiated_run this forceNew Hs).
  assert (Hadopted : forall id s, exists req,
            trace (adopted env this id s) = [req] /\ method req = GET).
  { intros id s. unfold adopted. eexists.
    destruct (transport env _) as [? | res]; [done |].
    by destruct (json_body res). }
  unfold negotiated.
  destruct (transport env (deleteRequest this)) as [e | r] eqn:Hd; cbn.
  { split; [by eexists | split; [by repeat constructor | done]]. }
  destruct (sessionIdOf r) as [e | id] eqn:Hi; cbn.
  { split; [by eexists | split; [by repeat constructor |]].
    intros r0 i0 [= <-] Hi0. congruence. }
  assert (Hpost : forall r0 i0, (inr r : JsError + Response) = inr r0 -> sessionIdOf r0 = inr i0 ->
                    Some (postRequest this id) = Some (postRequest this i0)).
  { intros r0 i0 [= <-] Hi0. congruence. }
  destruct (transport env (postRequest this id)) as [e | r']; cbn.
  { split; [by eexists | split; [by repeat constructor | exact Hpost]]. }
  destruct (sessionIdOf r') as [e | id']; cbn.
  { split; [by eexists | split; [by repeat constructor | exact Hpost]]. }
  destruct (Hadopted id' (set_http_cookie (cookieOf this id) this)) as (req & -> & Hm).
  cbn. rewrite Hm.
  split; [by eexists | split; [by repeat constructor | exact Hpost]].
Qed.

(** X13: only the negotiation is classified: when the client adopts the
    session it was given and the account request fails, [login] rejects
    with that very error, whatever its message, and the cookie of the
    session stays set. *)
Theorem login_account_failure (this : Magister) (id : string) (err : JsError) :
  sessionId (_options this) = Some id ->
  id <> "" ->
  transport env (accountRequest this id) = inl err ->
  login env false this
  = mkResult (set_http_cookie (cookieOf this id) this) [accountRequest this id]
      (Rejected err).
Proof.
  intros Hid Hne Herr. rewrite (login_adopted_run this id Hid Hne).
  unfold adopted. cbn [http_cookie set_http_cookie].
  change (mkRequest GET _ None (Some (cookieOf this id))) with (accountRequest this id).
  by rewrite Herr.
Qed.

Lemma takeId_chars (s : string) (c : ascii) :
  hasChar c (takeId s) = true -> isIdChar c = true.
Proof.
  induction s as [| c' s IH]; [done |].
  cbn [takeId]. destruct (isIdChar c') eqn:Hc'; [| done].
  cbn [hasChar]. intros [Heq | H]%orb_true_iff; [| by apply IH].
  apply Ascii.eqb_eq in Heq. by subst.
Qed.

Lemma execId_chars (s id : string) :
  execId s = Some id ->
  id <> "" /\ forall c, hasChar c id = true -> isIdChar c = true.
Proof.
  revert id. induction s as [| c' s IH]; intros id; [done |].
  cbn [execId]. destruct (isIdChar c') eqn:Hc'; [| apply IH].
  intros [= <-]. split; [cbn [takeId]; by rewrite Hc' |].
  apply (takeId_chars (String c' s)).
Qed.

(** X14: the session id a negotiating login resolves with is never empty
    and is made of lowercase letters, digits and hyphens only. *)
Theorem login_session_id (this : Magister) (forceNew : bool) (id : string) :
  forceNew = true \/ given (sessionId (_options this)) = false ->
  outcome (login env forceNew this) = Resolved id ->
  id <> "" /\ forall c, hasChar c id = true -> isIdChar c = true.
Proof.
  intros Hs. rewrite (login_negotiated_run this forceNew Hs).
  destruct (outcome (negotiated env this)) as [id0 | e | e] eqn:Hn; try done.
  cbn [outcome]. intros (-> & _)%adopted_resolved.
  unfold negotiated in Hn.
  destruct (transport env (deleteRequest this)) as [? | r]; [done |].
  destruct (sessionIdOf r) as [? | id1]; [done |]. cbn [outcome] in Hn.
  destruct (transport env (postRequest this id1)) as [? | r']; [done |].
  unfold sessionIdOf in Hn.
  destruct (execId (default "null" (set_cookie r'))) as [i |] eqn:Hex; [| done].
  injection Hn as <-. by apply execId_chars in Hex.
Qed.

End Session.

(* ================================================================== *)
(** ** Further properties of [appointments] *)
(* ================================================================== *)

Section Range.

Context (env : Env).

Lemma appointmentsPromise_run p u this :
  appointmentsPromise env p u this = privilegedGet env (Appointment_new env) p "afspraken" u this.
Proof. unfold appointmentsPromise. by rewrite fetch_run. Qed.

Lemma resolve_then {A B} (a : A) (f : A -> Async B) s :
  (Promise.resolve a >>= f) s
  = mkResult (state (f a s)) (trace (f a s))
      match outcome (f a s) with Thrown e => Rejected e | o => o end.
Proof. done. Qed.

Lemma appointments_run arguments from p this :
  dateArguments arguments !! 0%nat = Some from ->
  _privileges this = Some p ->
  let to := default from (dateArguments arguments !! 1%nat) in
  let A := privilegedGet env (Appointment_new env) p "afspraken"
             (appointmentsUrl env this from to) this in
  let B := absencesPromise env p (absencesUrl env this from to)
             (optionOr (optionsArgument arguments) "fetchAbsences" true)
             (optionOr (optionsArgument arguments) "ignoreAbsenceErrors" true) this in
  appointments env arguments this
  = match outcome A, outcome B with
    | Resolved a, Resolved b =>
        let r := filled env (optionOr (optionsArgument arguments) "fillPersons" false)
                   (sortBy Appointment.start (linkAbsences b a)) this in
        mkResult (state r) (trace A ++ trace B ++ trace r)
          match outcome r with Thrown e => Rejected e | o => o end
    | Rejected e, Resolved _ | Resolved _, Rejected e =>
        mkResult this (trace A ++ trace B) (Rejected e)
    | Rejected e1, Rejected e2 =>
        mkResult this (trace A ++ trace B)
          (if Promise.early A then Rejected e1
           else if Promise.early B then Rejected e2 else Rejected e1)
    | _, _ => appointments env arguments this
    end.
Proof.
  intros Hfrom Hp to A B.
  destruct (outcome A) as [a | ea | ea] eqn:HA; [| | done];
    destruct (outcome B) as [b | eb | eb] eqn:HB; try done;
    unfold appointments; rewrite Hfrom, Hp; fold to;
    rewrite then_assoc; unfold Promise.then_ at 1;
    (rewrite all2_run;
     [| intros e; rewrite appointmentsPromise_run; apply fetched_not_thrown
      | intros e; apply absencesPromise_not_thrown]);
    rewrite appointmentsPromise_run, fetched_state;
    cbn [outcome state trace]; rewrite (absencesPromise_state env); fold A B;
    rewrite HA, HB; try done.
  - rewrite resolve_then. cbn [outcome state trace]. unfold filled.
    rewrite <- app_assoc.
    match goal with
    | |- context [state ?x] => set (r := x)
    end.
    by destruct (outcome r).
  - by destruct (Promise.early A), (Promise.early B).
Qed.

(** X15: [ignoreAbsenceErrors: false] switches the tolerance off: when the
    appointments are fetched and the absence fetch fails, the call rejects
    with the error of the absence fetch. *)
Theorem appointments_absence_error_rejects (arguments : list data) (this : Magister)
    (from : Z) (p : Privileges.t) (fetched : list Appointment.t) (e : JsError) :
  dateArguments arguments !! 0%nat = Some from ->
  _privileges this = Some p ->
  truthy (optionOr (optionsArgument arguments) "fetchAbsences" true) = true ->
  truthy (optionOr (optionsArgument arguments) "ignoreAbsenceErrors" true) = false ->
  outcome (appointmentsPromise env p
             (appointmentsUrl env this from
                (default from (dateArguments arguments !! 1%nat))) this)
  = Resolved fetched ->
  outcome (absencesFetch env p
             (absencesUrl env this from
                (default from (dateArguments arguments !! 1%nat))) this)
  = Rejected e ->
  outcome (appointments env arguments this) = Rejected e.
Proof.
  intros Hfrom Hp Hfa Hia HA HB.
  rewrite (appointments_run arguments from p this Hfrom Hp).
  rewrite appointmentsPromise_run in HA. rewrite HA.
  unfold absencesPromise. by rewrite Hfa, Hia, HB.
Qed.

(** X16: [fetchAbsences: false] leaves the absences alone: with
    [fillPersons] off the call issues no request but the GET of the
    appointments, and no appointment it resolves with has an absence. *)
Theorem appointments_without_absences (arguments : list data) (this : Magister)
    (from : Z) (p : Privileges.t) :
  dateArguments arguments !! 0%nat = Some from ->
  _privileges this = Some p ->
  truthy (optionOr (optionsArgument arguments) "fetchAbsences" true) = false ->
  (truthy (optionOr (optionsArgument arguments) "fillPersons" false) = false ->
   forall req, req ∈ trace (appointments env arguments this) ->
     req = mkRequest GET
             (appointmentsUrl env this from
                (default from (dateArguments arguments !! 1%nat)))
             None (http_cookie this))
  /\ (forall l, outcome (appointments env arguments this) = Resolved l ->
        forall a, a ∈ l -> Appointment.absenceInfo a = None).
Proof.
  intros Hfrom Hp Hfa. split.
  - intros Hfp req.
    rewrite (appointments_run arguments from p this Hfrom Hp).
    unfold absencesPromise, filled. rewrite Hfa, Hfp.
    cbn [Promise.resolve negb trace outcome state]. rewrite !app_nil_r.
    pose proof (fetched_trace env (Appointment_new env) p "afspraken"
                  (appointmentsUrl env this from
                     (default from (dateArguments arguments !! 1%nat))) this) as Ht.
    pose proof (fetched_not_thrown env (Appointment_new env) p "afspraken"
                  (appointmentsUrl env this from
                     (default from (dateArguments arguments !! 1%nat))) this) as Hn.
    destruct (outcome (privilegedGet env _ p _ _ this)) as [a | e | e];
      [| | by destruct (Hn e)]; cbn [trace];
      (destruct Ht as [-> | ->];
       [by intros ?%elem_of_nil | by intros ->%list_elem_of_singleton]).
  - intros l Hl a Ha.
    destruct (appointments_resolved_spec env arguments this l Hl) as [_ Hfind].
    rewrite (Hfind a Ha). unfold fetchedAbsences. rewrite Hfrom, Hp.
    unfold absencesPromise. by rewrite Hfa.
Qed.

Lemma dateArguments_sorted (arguments : list data) (ds : list Z) :
  omap isDate arguments ≡ₚ ds -> StronglySorted Z.le ds -> dateArguments arguments = ds.
Proof.
  intros Hperm Hsorted. apply (StronglySorted_unique Z.le); [| done |].
  - apply (sortBy_sorted (fun t : Z => t)).
  - unfold dateArguments. by rewrite sortBy_perm.
Qed.

(** X17: the range asked for runs from the earliest date among the
    arguments to the second earliest (to the earliest itself when there is
    one date only); further dates are ignored.  On a client that may read
    [afspraken] the first request is the GET of that range. *)
Theorem appointments_range (arguments : list data) (this : Magister) (p : Privileges.t)
    (from : Z) (later : list Z) :
  omap isDate arguments ≡ₚ from :: later ->
  StronglySorted Z.le (from :: later) ->
  _privileges this = Some p ->
  Privileges.can p "afspraken" "read" = true ->
  head (trace (appointments env arguments this))
  = Some (mkRequest GET (appointmentsUrl env this from (default from (head later)))
            None (http_cookie this)).
Proof.
  intros Hperm Hsorted Hp Hcan.
  pose proof (dateArguments_sorted arguments _ Hperm Hsorted) as Hds.
  assert (Hfrom : dateArguments arguments !! 0%nat = Some from) by by rewrite Hds.
  rewrite (appointments_run arguments from p this Hfrom Hp).
  rewrite Hds. change ((from :: later) !! 1%nat) with (later !! 0%nat).
  rewrite <- (head_lookup later).
  set (A := privilegedGet env _ p _ _ this).
  set (B := absencesPromise env p _ _ _ this).
  assert (HtA : trace A
                = [mkRequest GET (appointmentsUrl env this from (default from (head later)))
                     None (http_cookie this)]).
  { unfold A, privilegedGet. by rewrite Hcan. }
  assert (HnA : forall e, outcome A <> Thrown e) by (intros e; apply fetched_not_thrown).
  assert (HnB : forall e, outcome B <> Thrown e)
    by (intros e; apply absencesPromise_not_thrown).
  destruct (outcome A) as [a | ea | ea]; [| | by destruct (HnA ea)];
    destruct (outcome B) as [b | eb | eb]; try (by destruct (HnB eb));
    cbn [trace]; by rewrite HtA.
Qed.

End Range.

(* ================================================================== *)
(** ** Properties of [magister] and [getSchools] *)
(* ================================================================== *)

Section Entry.

Context (env : Env).

(** X18: without a school, or with neither a session id nor both a
    username and a password (an empty string counts as absent), [magister]
    rejects with the error naming what is required and issues no request. *)
Theorem magister_requires (options : ClientOptions.t) :
  ClientOptions.school options = None
  \/ (given (ClientOptions.sessionId options) = false
      /\ (given (ClientOptions.username options) = false
          \/ given (ClientOptions.password options) = false)) ->
  magister env options = (defaults options, ([], Rejected requiredOptions))
  /\ message requiredOptions = "school, username&password or sessionId are required.".
Proof.
  intros H. split; [| done]. unfold magister. cbn.
  destruct (ClientOptions.school options) as [school |]; [| done].
  destruct H as [? | (-> & [-> | ->])]; [done | done |].
  by rewrite andb_false_r.
Qed.

(** X19: the client [magister] resolves with is the one it constructed
    from the options ([keepLoggedIn] defaulting to true).  With
    [login: false] no request is issued and the client holds no cookie and
    no privileges; otherwise (the default) it went through [login] and
    holds the cookie, the privileges and the person url. *)
Theorem magister_resolves (options : ClientOptions.t) (t : list Request) (m : Magister) :
  snd (magister env options) = (t, Resolved m) ->
  exists school,
    ClientOptions.school options = Some school
    /\ school_url m = school
    /\ _options m
       = mkOptions (ClientOptions.username options) (ClientOptions.password options)
           (ClientOptions.sessionId options)
           (default true (ClientOptions.keepLoggedIn options))
    /\ if default true (ClientOptions.login options)
       then is_Some (http_cookie m) /\ is_Some (_privileges m) /\ is_Some (_personUrl m)
       else t = [] /\ http_cookie m = None /\ _privileges m = None.
Proof.
  destruct options as [sch u pw sid k lg]. unfold magister.
  cbn [defaults ClientOptions.school ClientOptions.sessionId ClientOptions.username
       ClientOptions.password ClientOptions.login ClientOptions.keepLoggedIn default].
  destruct sch as [school |]; [| done].
  destruct (given sid || given u && given pw); [| done].
  set (m0 := Magister_new _ school).
  assert (Hlogin : (trace (login env false m0),
                    match outcome (login env false m0) with
                    | Resolved _ => Resolved (state (login env false m0))
                    | Rejected e => Rejected e
                    | Thrown e => Thrown e
                    end) = (t, Resolved m) ->
                   school_url m = school /\ _options m = _options m0 /\
                   is_Some (http_cookie m) /\ is_Some (_privileges m) /\
                   is_Some (_personUrl m)).
  { destruct (outcome (login env false m0)) as [id | |] eqn:Hl; try done.
    intros [= _ <-].
    destruct (login_resolved_state env m0 false id Hl)
      as (? & ? & ? & ? & ? & _ & _ & _ & _ & _ & ->).
    by repeat split. }
  intros H. exists school. split; [done |].
  destruct lg as [[|] |]; cbn [default snd] in *.
  - apply Hlogin in H as (? & Ho & Hready).
    split; [done | split; [by rewrite Ho | exact Hready]].
  - injection H as <- <-. split; [done | split; [done |]]. by repeat split.
  - apply Hlogin in H as (? & Ho & Hready).
    split; [done | split; [by rewrite Ho | exact Hready]].
Qed.

End Entry.

Section Schools.

Context {School : Type} (fetch : string -> JsError + Response)
        (School_new : data -> School).

Lemma hasChar_cons (c c' : ascii) (s : string) :
  hasChar c (String c' s) = true <-> c = c' \/ hasChar c s = true.
Proof. cbn [hasChar]. by rewrite orb_true_iff, Ascii.eqb_eq. Qed.

Lemma hasChar_stripDigits (c : ascii) (s : string) :
  hasChar c (stripDigits s) = true -> isDigit c = false /\ hasChar c s = true.
Proof.
  induction s as [| c' s IH]; [done |].
  cbn [stripDigits]. fold (isDigit c'). rewrite (hasChar_cons c c' s).
  destruct (isDigit c') eqn:Hd.
  - intros [? ?]%IH. auto.
  - intros [-> | [? ?]%IH]%hasChar_cons; auto.
Qed.

Lemma hasChar_trimStart (c : ascii) (s : string) :
  hasChar c (trimStart s) = true -> hasChar c s = true.
Proof.
  induction s as [| c' s IH]; [done |].
  cbn [trimStart]. destruct (isWhiteSpace c'); [| done].
  intros H%IH. apply hasChar_cons. auto.
Qed.

Lemma hasChar_trimEnd (c : ascii) (s : string) :
  hasChar c (trimEnd s) = true -> hasChar c s = true.
Proof.
  induction s as [| c' s IH]; [done |].
  cbn [trimEnd]. rewrite (hasChar_cons c c' s). destruct (trimEnd s) as [| c'' t].
  - destruct (isWhiteSpace c'); [done |]. intros [-> | ?]%hasChar_cons; [auto | done].
  - intros [-> | H]%hasChar_cons; auto.
Qed.

Lemma hasChar_replaceSpaces (c : ascii) (s : string) :
  hasChar c (replaceSpaces s) = true -> c = "+"%char \/ hasChar c s = true.
Proof.
  induction s as [| c' s IH]; [done |].
  cbn [replaceSpaces]. rewrite (hasChar_cons c c' s). destruct (Ascii.eqb c' " ").
  - destruct s as [| c'' s'].
    + intros [-> | ?]%hasChar_cons; [auto | done].
    + destruct (Ascii.eqb c'' " ").
      * intros [? | ?]%IH; auto.
      * intros [-> | [? | ?]%IH]%hasChar_cons; auto.
  - intros [-> | [? | ?]%IH]%hasChar_cons; auto.
Qed.

Lemma trimStart_blank (s : string) :
  (forall c, hasChar c s = true -> isWhiteSpace c = true) -> trimStart s = "".
Proof.
  induction s as [| c' s IH]; [done |]. intros H.
  cbn [trimStart]. rewrite (H c') by (apply hasChar_cons; auto).
  apply IH. intros c Hc. apply H, hasChar_cons. auto.
Qed.

(** X20: a query made of digits and white space only (a postal code, say)
    is answered with the empty list without any fetch: the digits are
    removed before the length is looked at. *)
Theorem getSchools_digits_only (query : string) :
  (forall c, hasChar c query = true -> isDigit c = true \/ isWhiteSpace c = true) ->
  getSchools fetch School_new query = ([], Resolved []).
Proof.
  intros H. unfold getSchools.
  assert (Hblank : trim (stripDigits query) = "").
  { unfold trim. rewrite trimStart_blank; [done |].
    intros c [Hd Hc]%hasChar_stripDigits.
    destruct (H c Hc) as [Hd' | ?]; [congruence | done]. }
  by rewrite Hblank.
Qed.

(** X21: [getSchools] fetches at most once, and only the school list
    filtered by a text of three characters or more in which no digit and no
    space is left. *)
Theorem getSchools_request (query : string) :
  fst (getSchools fetch School_new query) = []
  \/ exists filter,
       fst (getSchools fetch School_new query)
       = ["https://mijn.magister.net/api/schools?filter=" +:+ filter]
       /\ (3 <= String.length filter)%nat
       /\ hasChar " " filter = false
       /\ forall c, hasChar c filter = true -> isDigit c = false.
Proof.
  unfold getSchools.
  destruct (_ <? 3)%nat eqn:Hlen; [by left |]. right.
  exists (replaceSpaces (trim (stripDigits query))).
  split; [done |]. split; [by apply Nat.ltb_ge |]. split.
  - apply replaceSpaces_no_space.
  - intros c [-> | Hc]%hasChar_replaceSpaces; [done |].
    unfold trim in Hc. apply hasChar_trimEnd, hasChar_trimStart in Hc.
    by apply hasChar_stripDigits in Hc as [? _].
Qed.

End Schools.

(* ================================================================== *)
(** ** The further properties on the fixture portal *)
(* ================================================================== *)

Lemma withContent_payload : exists P, payload Runs.withContent = inr P.
Proof.
  unfold payload.
  destruct (toJSON (get Runs.withContent "start")) as [e | Start] eqn:H1;
    [vm_compute in H1; discriminate H1 |].
  destruct (toJSON (get Runs.withContent "end")) as [e | Einde] eqn:H2;
    [vm_compute in H2; discriminate H2 |].
  destruct (Inhoud Runs.withContent) as [e | inhoud] eqn:H3;
    [vm_compute in H3; discriminate H3 |].
  eexists. reflexivity.
Qed.

Lemma createAppointment_needs_create_witness :
  trace (snd (createAppointment Examples.E Runs.withContent) Runs.readOnly) = []
  /\ exists e, outcome (snd (createAppointment Examples.E Runs.withContent) Runs.readOnly)
               = Rejected e
               /\ kind e = PermissionError.
Proof.
  destruct (createAppointment_needs_create Examples.E Runs.readOnly
              (Privileges.grant "Afspraken" "read" ∅) Runs.withContent eq_refl
              ltac:(vm_compute; reflexivity)) as (Ht & _ & H).
  split; [exact Ht |].
  destruct withContent_payload as [P HP].
  exact (H P ltac:(vm_compute; reflexivity) ltac:(vm_compute; reflexivity) HP).
Defined.

Lemma nothing_before_login_witness :
  courses Examples.E Runs.rightPassword
  = mkResult Runs.rightPassword [] (Thrown notLoggedIn)
  /\ appointments Examples.E Runs.twoDates Runs.rightPassword
     = mkResult Runs.rightPassword [] (Thrown notLoggedIn).
Proof.
  destruct (nothing_before_login Examples.E Runs.rightPassword eq_refl)
    as (Hc & _ & _ & Ha & _).
  split; [exact Hc |]. apply (Ha Runs.twoDates 1520845200001).
  unfold Runs.twoDates. set_solver.
Defined.


Lemma courses_sorted_witness :
  exists l, outcome (courses (Fixture.env Runs.lists) Runs.everything) = Resolved l
            /\ Course.start <$> l = [1472688000000; 1504224000000; 1504224000000]
            /\ StronglySorted Z.le (Course.start <$> l).
Proof.
  eexists. split; [vm_compute; reflexivity |]. split; [reflexivity |].
  eapply (courses_sorted (Fixture.env Runs.lists) Runs.everything).
  vm_compute. reflexivity.
Defined.

Lemma messageFolders_in_order_witness :
  exists l res body items,
    outcome (messageFolders (Fixture.env Runs.lists) Runs.everything) = Resolved l
    /\ Runs.lists (mkRequest GET "https://school.nl/api/personen/7/berichten/mappen" None
                     (Some "SESSION_ID=new-1; M6UserName=leerling")) = inr res
    /\ json_body res = inr body
    /\ prop body "Items" = inr (Arr items)
    /\ l = MessageFolder.mk <$> items.
Proof.
  eexists.
  destruct (messageFolders_in_order (Fixture.env Runs.lists) Runs.everything _
              ltac:(vm_compute; reflexivity)) as (res & body & items & H1 & H2 & H3 & H4).
  exists res, body, items. split; [vm_compute; reflexivity |].
  split; [exact H1 | split; [exact H2 | split; [exact H3 | exact H4]]].
Defined.

Lemma persons_request_witness :
  personType Examples.E "parent" = "Overig"
  /\ personType Examples.E "constructor" = "function Object() { [native code] }"
  /\ hasChar " " (replaceSpaces (trim " ab  cd ")) = false.
Proof.
  destruct (persons_request Examples.E Runs.everything Fixture.allPrivileges
              " ab  cd " "parent" eq_refl ltac:(vm_compute; lia))
    as (_ & _ & H & _ & H').
  destruct (persons_request Examples.E Runs.everything Fixture.allPrivileges
              " ab  cd " "constructor" eq_refl ltac:(vm_compute; lia))
    as (_ & _ & _ & Hc & _).
  split; [| split; [| exact H']].
  - apply H.
    + rewrite !elem_of_cons, elem_of_nil. intros [? | [? | [? | []]]]; discriminate.
    + intros Hin. by apply (bool_decide_pack _) in Hin.
  - apply Hc. by repeat constructor.
Defined.

Lemma persons_teachers_then_pupils_witness :
  exists l,
    outcome (persons (Fixture.env Runs.lists) (Some " ab  cd ") None Runs.everything)
    = Resolved l
    /\ Person.raw <$> l
       = [Runs.named "docent ab cd"; Runs.named "leerling ab cd"; Runs.named "leerling cd ab"].
Proof.
  destruct (persons_teachers_then_pupils (Fixture.env Runs.lists) Runs.everything
              Fixture.allPrivileges " ab  cd " eq_refl ltac:(vm_compute; lia))
    as (_ & H & _).
  eexists. split.
  - apply H; vm_compute; reflexivity.
  - reflexivity.
Defined.

Lemma persons_filled_witness :
  exists l,
    outcome (persons (Fixture.env Runs.lists) (Some " ab  cd ") None Runs.everything)
    = Resolved l
    /\ length l = 3%nat
    /\ forall x, x ∈ l -> Person._filled x = true.
Proof.
  eexists. split; [vm_compute; reflexivity |]. split; [reflexivity |].
  eapply (persons_filled (Fixture.env Runs.lists) Runs.everything
            (Some " ab  cd ") None).
  vm_compute. reflexivity.
Defined.

Lemma login_ready_witness :
  http_cookie (state (login Examples.E false Runs.rightPassword))
  = Some "SESSION_ID=new-1; M6UserName=leerling"
  /\ _personUrl (state (login Examples.E false Runs.rightPassword))
     = Some "https://school.nl/api/personen/7".
Proof.
  destruct (login_ready Examples.E Runs.rightPassword false "new-1"
              ltac:(vm_compute; reflexivity))
    as (res & body & Persoon & pid & privileges & H1 & H2 & H3 & H4 & H5 & Hstate & Hn).
  split; [by rewrite Hstate |].
  vm_compute in H1. injection H1 as <-. vm_compute in H2. injection H2 as <-.
  vm_compute in H3. injection H3 as <-. vm_compute in H4. injection H4 as <-.
  destruct (Hn 7 eq_refl ltac:(vm_compute; discriminate)) as [-> _].
  reflexivity.
Defined.

Lemma login_negotiation_order_witness :
  method <$> trace (login Examples.E true Runs.withSession) = [DELETE; POST]
  /\ trace (login Examples.E true Runs.withSession) !! 1%nat
     = Some (postRequest Runs.withSession "old-0").
Proof.
  destruct (login_negotiation_order Examples.E Runs.withSession true (or_introl eq_refl))
    as (_ & _ & H).
  split; [vm_compute; reflexivity |].
  eapply H; vm_compute; reflexivity.
Defined.

Lemma login_account_failure_witness :
  outcome (login (Fixture.env Runs.accountDown) false Runs.withSession)
  = Rejected Runs.refused
  /\ kind Runs.refused = GenericError
  /\ message Runs.refused ∈ invalidCredentials.
Proof.
  rewrite (login_account_failure (Fixture.env Runs.accountDown) Runs.withSession "abc"
             Runs.refused eq_refl ltac:(discriminate) ltac:(vm_compute; reflexivity)).
  split; [reflexivity | split; [reflexivity |]].
  unfold invalidCredentials. cbn. set_solver.
Defined.

Lemma login_session_id_witness :
  outcome (login Examples.E false Runs.rightPassword) = Resolved "new-1"
  /\ forall c, hasChar c "new-1" = true -> isIdChar c = true.
Proof.
  split; [vm_compute; reflexivity |].
  apply (login_session_id Examples.E Runs.rightPassword false "new-1").
  - right. reflexivity.
  - vm_compute. reflexivity.
Defined.

Lemma appointments_absence_error_rejects_witness :
  outcome (appointments (Fixture.env (Fixture.portal false)) Runs.strict Runs.everything)
  = Rejected Fixture.down.
Proof.
  exact (appointments_absence_error_rejects (Fixture.env (Fixture.portal false))
           Runs.strict Runs.everything 1520640245123 Fixture.allPrivileges
           Runs.fetchedAppointments Fixture.down
           ltac:(vm_compute; reflexivity) eq_refl
           ltac:(vm_compute; reflexivity) ltac:(vm_compute; reflexivity)
           ltac:(vm_compute; reflexivity) ltac:(vm_compute; reflexivity)).
Defined.

Lemma appointments_without_absences_witness :
  Forall (fun req => url req
            = "https://school.nl/api/personen/7/afspraken?van=2018-03-10&tot=2018-03-12")
    (trace (appointments Examples.E Runs.noAbsences Runs.everything)).
Proof.
  destruct (appointments_without_absences Examples.E Runs.noAbsences Runs.everything
              1520640245123 Fixture.allPrivileges
              ltac:(vm_compute; reflexivity) eq_refl ltac:(vm_compute; reflexivity))
    as [H _].
  apply Forall_forall. intros req Hreq.
  rewrite (H ltac:(vm_compute; reflexivity) req Hreq).
  vm_compute. reflexivity.
Defined.

Lemma appointments_range_witness :
  url <$> head (trace (appointments Examples.E Runs.threeDates Runs.everything))
  = Some "https://school.nl/api/personen/7/afspraken?van=2018-03-10&tot=2018-03-12".
Proof.
  rewrite (appointments_range Examples.E Runs.threeDates Runs.everything
             Fixture.allPrivileges 1520640245123 [1520845200001; 1530000000000]).
  - vm_compute. reflexivity.
  - cbn. apply Permutation_sym, Permutation_cons_app with (l1 := [_; _]) (l2 := []).
    reflexivity.
  - repeat constructor; lia.
  - reflexivity.
  - vm_compute. reflexivity.
Defined.

Lemma magister_requires_witness :
  snd (magister Examples.E
         (ClientOptions.mk (Some "http://school.nl") (Some "leerling") (Some "") None
            None None))
  = ([], Rejected requiredOptions).
Proof.
  destruct (magister_requires Examples.E
              (ClientOptions.mk (Some "http://school.nl") (Some "leerling") (Some "") None
                 None None)) as [H _].
  - right. split; [reflexivity | right; reflexivity].
  - by rewrite H.
Defined.

Lemma magister_resolves_witness :
  snd (magister Examples.E Runs.byPassword)
  = (trace (login Examples.E false Runs.rightPassword),
     Resolved (state (login Examples.E false Runs.rightPassword)))
  /\ keepLoggedIn (_options (state (login Examples.E false Runs.rightPassword))) = true
  /\ is_Some (_privileges (state (login Examples.E false Runs.rightPassword))).
Proof.
  assert (H : snd (magister Examples.E Runs.byPassword)
              = (trace (login Examples.E false Runs.rightPassword),
                 Resolved (state (login Examples.E false Runs.rightPassword)))).
  { assert (Hl : outcome (login Examples.E false Runs.rightPassword) = Resolved "new-1")
      by (vm_compute; reflexivity).
    change (snd (magister Examples.E Runs.byPassword))
      with (trace (login Examples.E false Runs.rightPassword),
            match outcome (login Examples.E false Runs.rightPassword) with
            | Resolved _ => Resolved (state (login Examples.E false Runs.rightPassword))
            | Rejected e => Rejected e
            | Thrown e => Thrown e
            end).
    by rewrite Hl. }
  split; [exact H |].
  destruct (magister_resolves Examples.E Runs.byPassword _ _ H)
    as (school & _ & _ & Ho & _ & Hp & _).
  split; [by rewrite Ho | exact Hp].
Defined.

Lemma getSchools_digits_only_witness :
  getSchools Runs.directory (fun d => d) "1234 56" = ([], Resolved []).
Proof.
  apply getSchools_digits_only. intros c Hc.
  destruct c as [[] [] [] [] [] [] [] []]; try discriminate Hc; vm_compute; auto.
Defined.
